(** * The swarm Streamer (swarm/network/streamer.go)

    A shallow embedding of the per-peer streaming protocol engine:
    the wire messages, the per-peer registries of outgoing and incoming
    stream handlers, the protocol message handlers, the receive loop and
    the goroutines the handlers start.  Go pointers to registry entries
    are modelled by the map key the entry is stored under; goroutines are
    modelled as entries of a pool, run one atomic step at a time by an
    explicit schedule. *)

From Stdlib Require Import NArith ZArith List String Ascii Lia Bool.
From Stdlib Require Import Strings.Byte.
From stdpp Require Import base option gmap strings list.

Local Open Scope nat_scope.

(** ** Bytes, integers, errors *)

Abbreviation byte := Byte.byte.
Abbreviation bytes := (list Byte.byte).

#[global] Instance byte_eq_dec : EqDecision Byte.byte := Byte.byte_eq_dec.
#[global] Program Instance byte_countable : Countable Byte.byte :=
  inj_countable Byte.to_N Byte.of_N _.
Next Obligation. intros x. apply Byte.of_to_N. Qed.

(** [uint64] stream positions and [uint8] priorities.  The streamer only
    copies and compares them, so no wrap-around arises. *)
Abbreviation uint64 := N.
Abbreviation uint8 := N.

(** Go's [string(b)] conversion of a byte slice. *)
Definition string_of_bytes (b : bytes) : string := string_of_list_byte b.

(** The constant block of streamer.go.  [iota] counts the lines of the
    block, and [HashSize] takes line 0, so [Low] starts at 1. *)
Definition HashSize : nat := 32.
Definition Low : N := 1.
Definition Mid : N := 2.
Definition High : N := 3.
Definition Top : N := 4.
Definition PriorityQueue : N := 5.
Definition PriorityQueueCap : nat := 3.

(** The errors of the streamer, one constructor per error text. *)
Inductive error : Type :=
| ErrStreamNotRegistered (stream : string)   (* "stream %v not registered" *)
| ErrStreamNotProvided (s : string)          (* "stream '%v' not provided" *)
| ErrAlreadyRegistered (s : string)          (* "stream %v already registered" *)
| ErrPeerNotFound (peerId : nat)             (* "peer not found %v" *)
| ErrNotFound                                (* "not found" *)
| ErrConstructor (code : nat)                (* error of a stream constructor *)
| ErrSetNextBatch (code : nat)               (* error of SetNextBatch *)
| ErrTakeover (code : nat)                   (* error of a takeover finalizer *)
| ErrInvalidLength                           (* bitvector length mismatch *)
| ErrQueueFull                               (* priority queue level full *)
| ErrChunkNotFound                           (* chunk store lookup failure *)
| ErrUnknownMessage.                         (* "unknown message type: %T" *)

(** The outcome of running Go code: a value, a returned [error], or a
    run-time panic. *)
Inductive result (A : Type) : Type :=
| Ok (a : A)
| Err (e : error)
| Panic.
Arguments Ok {A} a.
Arguments Err {A} e.
Arguments Panic {A}.

(** Go slice expression [s[lo:hi]]; out of range panics. *)
Definition slice {A} (s : list A) (lo hi : nat) : option (list A) :=
  if (lo <=? hi) && (hi <=? length s) then Some (take (hi - lo) (drop lo s))
  else None.

(** ** Bit vector (swarm/network/bitvector) *)

Module bv.

(** Modelled from the spec: the bitvector package is not part of the
    sources at hand.  Section 4.1: a fixed-length bit array;
    [from_bytes] requires [len(buf) = ceil(n_bits/8)]; bit [i] is
    stored in byte [i/8], position [i%8], least-significant first. *)
Record BitVector : Type := mkBV { len : nat; b : bytes }.

Definition nbytes (l : nat) : nat := (l + 7) / 8.

Definition New (l : nat) : result BitVector :=
  Ok (mkBV l (replicate (nbytes l) x00)).

Definition NewFromBytes (buf : bytes) (l : nat) : result BitVector :=
  if length buf =? nbytes l then Ok (mkBV l buf) else Err ErrInvalidLength.

Definition byte_testbit (x : byte) (k : nat) : bool :=
  N.testbit (Byte.to_N x) (N.of_nat k).

Definition byte_setbit (x : byte) (k : nat) (v : bool) : byte :=
  let n := Byte.to_N x in
  let n' := if v then N.setbit n (N.of_nat k) else N.clearbit n (N.of_nat k) in
  default x (Byte.of_N n').

(** [Get] and [Set] index the byte array; an index outside it panics. *)
Definition Get (v : BitVector) (i : nat) : option bool :=
  (fun x => byte_testbit x (i mod 8)) <$> (b v !! (i / 8)).

Definition Set_ (v : BitVector) (i : nat) (x : bool) : option BitVector :=
  match b v !! (i / 8) with
  | Some y => Some (mkBV (len v) (<[i / 8 := byte_setbit y (i mod 8) x]> (b v)))
  | None => None
  end.

Definition Bytes (v : BitVector) : bytes := b v.

End bv.

(** ** Priority queue (swarm/network/priorityqueue) *)

Module pq.

(** Modelled from the spec: the priority queue package is not part of
    the sources at hand.  Section 4.2: [new(levels, capacity)] yields
    [levels] independent bounded FIFOs; [push] is non-blocking: if the
    target level has room it enqueues and returns success, else it
    returns a "full" error. *)
Record PriorityQueue (A : Type) : Type :=
  mkPQ { Queues : list (list A); capacity : nat }.
Arguments mkPQ {A} _ _.
Arguments Queues {A} _.
Arguments capacity {A} _.

Definition New {A} (n c : nat) : PriorityQueue A := mkPQ (replicate n []) c.

Definition has_room {A} (q : PriorityQueue A) (p : nat) : bool :=
  match Queues q !! p with
  | Some lvl => length lvl <? capacity q
  | None => false
  end.

(** [Push(nil, x, p)]: the non-blocking path. *)
Definition Push {A} (q : PriorityQueue A) (x : A) (p : nat)
  : option error * PriorityQueue A :=
  match Queues q !! p with
  | Some lvl =>
      if length lvl <? capacity q
      then (None, mkPQ (<[p := lvl ++ [x]]> (Queues q)) (capacity q))
      else (Some ErrQueueFull, q)
  | None => (Some ErrQueueFull, q)
  end.

(** The items waiting at level [p], oldest first. *)
Definition level {A} (q : PriorityQueue A) (p : nat) : list A :=
  default [] (Queues q !! p).

End pq.

(** ** Wire messages and proofs *)

(** [Handover]: the statement that a stream section is handed over. *)
Record Handover : Type := mkHandover {
  Stream : string;
  Start : uint64;
  End_ : uint64;
  Root : bytes
}.

(** [HandoverProof] embeds a [*Handover]; the pointer may be nil. *)
Record HandoverProof : Type := mkHandoverProof {
  Sig : bytes;
  Handover_ : option Handover
}.

(** [TakeoverProof] embeds a [*Takeover], with [Takeover] the same
    struct as [Handover]. *)
Record TakeoverProof : Type := mkTakeoverProof {
  tSig : bytes;
  Takeover_ : option Handover
}.

Module SubscribeMsg.
Record t : Type := mk {
  Stream : string;
  Key : bytes;
  From : uint64;
  To : uint64;
  Priority : uint8
}.
End SubscribeMsg.

Module UnsyncedKeysMsg.
Record t : Type := mk {
  Stream : string;
  Key : bytes;
  From : uint64;
  To : uint64;
  Hashes : bytes;
  HandoverProof_ : option HandoverProof
}.
(** [req.Root] is promoted through the two embedded pointers; a nil
    pointer on the way makes the selector panic. *)
Definition Root (m : t) : option bytes :=
  hp ← HandoverProof_ m; h ← Handover_ hp; Some (Root h).
End UnsyncedKeysMsg.

Module WantedKeysMsg.
Record t : Type := mk {
  Stream : string;
  Key : bytes;
  Want : bytes;
  From : uint64;
  To : uint64
}.
End WantedKeysMsg.

Module ChunkDeliveryMsg.
Record t : Type := mk {
  Key : bytes;
  SData : bytes;
  Id : uint64
}.
End ChunkDeliveryMsg.

Module RetrieveRequestMsg.
Record t : Type := mk { Key : bytes }.
End RetrieveRequestMsg.

Module TakeoverProofMsg.
(** [type TakeoverProofMsg TakeoverProof]; [req.Stream] is promoted
    through the embedded [*Takeover]. *)
Definition t : Type := TakeoverProof.
Definition Stream (m : t) : option string := Stream <$> Takeover_ m.
End TakeoverProofMsg.

(** What travels through the priority queue ([interface{}] items). *)
Inductive Msg : Type :=
| MSubscribe (m : SubscribeMsg.t)
| MUnsyncedKeys (m : UnsyncedKeysMsg.t)
| MWantedKeys (m : WantedKeysMsg.t)
| MTakeoverProof (m : TakeoverProof)
| MChunkDelivery (m : ChunkDeliveryMsg.t)
| MRetrieveRequest (m : RetrieveRequestMsg.t).

(** ** Chunks and channels *)

(** A channel is identified by a number; [nil] channels are [None]. *)
Abbreviation chan := nat.

(** [storage.Chunk], as far as the streamer touches it: the key, the
    data and the request channel [ReqC] (the pending signal). *)
Record Chunk : Type := mkChunk {
  cKey : bytes;
  cSData : bytes;
  ReqC : option chan
}.

(** [storage.NewChunk(key, reqC)]. *)
Definition NewChunk (key : bytes) (reqC : option chan) : Chunk :=
  mkChunk key [] reqC.

(** ** The stream handler interfaces *)

(** A wait function returned by [NeedData]: it blocks until the chunk
    has arrived and is stored.  Only its identity matters here; when it
    returns is decided by the schedule. *)
Abbreviation WaitFn := nat.

(** [OutgoingStreamer].  [GetData] returns [nil] ([None]) for a hash it
    cannot serve.  [deliveryC] is [Some c] when the dynamic type is
    [*RetrieveRequestStreamer], whose delivery channel is [c]. *)
Record OutgoingStreamer : Type := mkOutgoing {
  SetNextBatch : uint64 -> uint64 ->
                 result (bytes * uint64 * uint64 * option HandoverProof);
  GetData : bytes -> option bytes;
  deliveryC : option chan
}.

(** [IncomingStreamer].  [NeedData] returns [nil] ([None]) when the hash
    is not needed.  [BatchDone] returns [nil] or a finalizer; the
    finalizer is given by its result. *)
Record IncomingStreamer : Type := mkIncoming {
  NeedData : bytes -> option WaitFn;
  BatchDone : string -> uint64 -> bytes -> bytes -> option (result TakeoverProof)
}.

(** ** Per-peer state *)

Record outgoingStreamer : Type := mkOutgoingStreamer {
  oOutgoingStreamer : OutgoingStreamer;
  opriority : uint8;
  currentBatch : bytes
}.

(** The [intervals *Intervals] field is never assigned nor read (its
    uses are commented out in the source) and is left out.  [next] is a
    channel of capacity 1, given by the number of buffered tokens;
    [quit] is a channel that may be nil. *)
Record incomingStreamer : Type := mkIncomingStreamer {
  iIncomingStreamer : IncomingStreamer;
  ipriority : uint8;
  sessionAt : uint64;
  live : bool;
  quit : option chan;
  next : nat
}.

(** Goroutines started by the handlers ([go ...]).  Registry entries are
    referred to by the key they are stored under. *)
Inductive goroutine : Type :=
| GoSendUnsyncedKeys (s : string) (f t : uint64)
    (* go self.SendUnsyncedKeys(s, f, t) *)
| GoWait (w : WaitFn) (wg : nat)
    (* go func(w func()) { w(); wg.Done() }(wait) *)
| GoBatchDone (s : string) (wg : nat) (req : UnsyncedKeysMsg.t)
    (* go func() { wg.Wait(); ...BatchDone...; s.next <- struct{}{} }() *)
| GoSignalNext (s : string)
    (* the same goroutine, arrived at  s.next <- struct{}{} *)
| GoGatedSend (s : string) (msg : WantedKeysMsg.t)
    (* go func() { select { case <-s.next: case <-s.quit: return }; send }() *)
| GoSendWanted (s : string) (msg : WantedKeysMsg.t)
    (* the same goroutine, arrived at  self.SendPriority(msg, s.priority) *)
| GoRetrieveWait (chunk : Chunk) (dc : chan).
    (* go func() { select { <-chunk.ReqC | <-quit | <-t.C }; deliveryC <- chunk }() *)

(** Calls of the handler interfaces and sends, in program order. *)
Inductive event : Type :=
| EvNeedData (s : string) (hash : bytes) (wanted : bool)
| EvGetData (s : string) (hash : bytes) (found : bool)
| EvSetNextBatch (s : string) (f t : uint64)
| EvBatchDone (s : string) (from : uint64) (hashes : bytes)
| EvNextSignal (s : string)
| EvNextTaken (s : string)
| EvQuitTaken (s : string)
| EvWaitDone (w : WaitFn) (wg : nat)
| EvPush (m : Msg) (priority : uint8) (ok : bool).

(** [StreamerPeer].  The embedded [Peer] is represented by its node id;
    the back pointer [streamer] and [dbAccess] are passed to the
    functions that use them. *)
Record StreamerPeer : Type := mkStreamerPeer {
  ID : nat;
  pq_ : pq.PriorityQueue Msg;
  outgoing : gmap string outgoingStreamer;
  incoming : gmap string incomingStreamer;
  quitClosed : bool;                (* whether [quit] has been closed *)
  wgs : list nat;                   (* counters of the WaitGroups made *)
  goroutines : list goroutine;      (* goroutines started and not finished *)
  deliveries : list (chan * Chunk); (* chunks sent on delivery channels *)
  trace : list event
}.

(** [NewStreamerPeer].  The queue worker [pq.Run] and the goroutine that
    cancels it on [quit] belong to the priority queue and are not part
    of the pool. *)
Definition NewStreamerPeer (p : nat) : StreamerPeer :=
  mkStreamerPeer p (pq.New (N.to_nat PriorityQueue) PriorityQueueCap)
                 ∅ ∅ false [] [] [] [].

(** Field updates of [StreamerPeer]. *)
Definition set_pq (q : pq.PriorityQueue Msg) (p : StreamerPeer) : StreamerPeer :=
  mkStreamerPeer (ID p) q (outgoing p) (incoming p) (quitClosed p) (wgs p)
                 (goroutines p) (deliveries p) (trace p).
Definition set_outgoing (m : gmap string outgoingStreamer) (p : StreamerPeer) : StreamerPeer :=
  mkStreamerPeer (ID p) (pq_ p) m (incoming p) (quitClosed p) (wgs p)
                 (goroutines p) (deliveries p) (trace p).
Definition set_incoming (m : gmap string incomingStreamer) (p : StreamerPeer) : StreamerPeer :=
  mkStreamerPeer (ID p) (pq_ p) (outgoing p) m (quitClosed p) (wgs p)
                 (goroutines p) (deliveries p) (trace p).
Definition set_quitClosed (c : bool) (p : StreamerPeer) : StreamerPeer :=
  mkStreamerPeer (ID p) (pq_ p) (outgoing p) (incoming p) c (wgs p)
                 (goroutines p) (deliveries p) (trace p).
Definition set_wgs (w : list nat) (p : StreamerPeer) : StreamerPeer :=
  mkStreamerPeer (ID p) (pq_ p) (outgoing p) (incoming p) (quitClosed p) w
                 (goroutines p) (deliveries p) (trace p).
Definition set_goroutines (g : list goroutine) (p : StreamerPeer) : StreamerPeer :=
  mkStreamerPeer (ID p) (pq_ p) (outgoing p) (incoming p) (quitClosed p) (wgs p)
                 g (deliveries p) (trace p).
Definition set_deliveries (d : list (chan * Chunk)) (p : StreamerPeer) : StreamerPeer :=
  mkStreamerPeer (ID p) (pq_ p) (outgoing p) (incoming p) (quitClosed p) (wgs p)
                 (goroutines p) d (trace p).
Definition set_trace (t : list event) (p : StreamerPeer) : StreamerPeer :=
  mkStreamerPeer (ID p) (pq_ p) (outgoing p) (incoming p) (quitClosed p) (wgs p)
                 (goroutines p) (deliveries p) t.

(** Field updates of the registry entries. *)
Definition set_currentBatch (h : bytes) (o : outgoingStreamer) : outgoingStreamer :=
  mkOutgoingStreamer (oOutgoingStreamer o) (opriority o) h.
Definition set_sessionAt (n : uint64) (i : incomingStreamer) : incomingStreamer :=
  mkIncomingStreamer (iIncomingStreamer i) (ipriority i) n (live i) (quit i) (next i).
Definition set_next (n : nat) (i : incomingStreamer) : incomingStreamer :=
  mkIncomingStreamer (iIncomingStreamer i) (ipriority i) (sessionAt i) (live i) (quit i) n.

(** ** A state and error monad over the peer *)

Definition M (A : Type) : Type := StreamerPeer -> result A * StreamerPeer.

Definition ret {A} (a : A) : M A := fun self => (Ok a, self).
Definition fail {A} (e : error) : M A := fun self => (Err e, self).
Definition panic {A} : M A := fun self => (Panic, self).

Definition bind {A B} (m : M A) (k : A -> M B) : M B := fun self =>
  match m self with
  | (Ok a, self') => k a self'
  | (Err e, self') => (Err e, self')
  | (Panic, self') => (Panic, self')
  end.

Notation "'let*' x ':=' m 'in' k" := (bind m (fun x => k))
  (at level 10, x name, m at level 100, k at level 200, only parsing).

Definition get : M StreamerPeer := fun self => (Ok self, self).
Definition modify (f : StreamerPeer -> StreamerPeer) : M unit :=
  fun self => (Ok tt, f self).

(** A returned error taken as a value ([x, err := f()]). *)
Definition attempt {A} (m : M A) : M (error + A) := fun self =>
  match m self with
  | (Ok a, self') => (Ok (inr a), self')
  | (Err e, self') => (Ok (inl e), self')
  | (Panic, self') => (Panic, self')
  end.

Definition lift {A} (r : result A) : M A := fun self => (r, self).

(** A partial operation whose failure is a run-time panic. *)
Definition orPanic {A} (o : option A) : M A :=
  match o with Some a => ret a | None => panic end.

Definition log (e : event) : M unit :=
  modify (fun p => set_trace (trace p ++ [e]) p).

(** [go g]. *)
Definition go (g : goroutine) : M unit :=
  modify (fun p => set_goroutines (goroutines p ++ [g]) p).

(** ** Registry accessors of the peer *)

Definition getOutgoingStreamer (s : string) : M outgoingStreamer := fun self =>
  match outgoing self !! s with
  | Some streamer => (Ok streamer, self)
  | None => (Err (ErrStreamNotProvided s), self)
  end.

Definition getIncomingStreamer (s : string) : M incomingStreamer := fun self =>
  match incoming self !! s with
  | Some streamer => (Ok streamer, self)
  | None => (Err (ErrStreamNotProvided s), self)
  end.

(** Returns the pointer to the new entry, that is the key [s]. *)
Definition setOutgoingStreamer (s : string) (o : OutgoingStreamer) (priority : uint8)
  : M string := fun self =>
  match outgoing self !! s with
  | Some _ => (Err (ErrAlreadyRegistered s), self)
  | None =>
      let os := mkOutgoingStreamer o priority [] in
      (Ok s, set_outgoing (<[s := os]> (outgoing self)) self)
  end.

(** The new entry has a zero [sessionAt], a nil [quit], and a [next]
    channel of capacity 1 holding one token. *)
Definition setIncomingStreamer (s : string) (i : IncomingStreamer) (priority : uint8)
    (live : bool) : M unit := fun self =>
  match incoming self !! s with
  | Some _ => (Err (ErrAlreadyRegistered s), self)
  | None =>
      let entry := mkIncomingStreamer i priority 0%N live None 1 in
      (Ok tt, set_incoming (<[s := entry]> (incoming self)) self)
  end.

(** ** nextBatch *)

(** Go's [l[i] = x]; out of range panics. *)
Definition store_index {A} (l : list A) (i : nat) (x : A) : option (list A) :=
  if i <? length l then Some (<[i := x]> l) else None.

(** The body of [nextBatch], from the value [intervals] of its local
    variable on.  [None] is a run-time panic (index out of range). *)
Definition nextBatchFrom (intervals : list uint64) (self : incomingStreamer)
    (from : uint64) : option (uint64 * uint64) :=
  if live self then
    _ ← (if length intervals =? 0 then Some [sessionAt self; from]
         else store_index intervals 1 from);
    Some (from, 0%N)
  else if (sessionAt self <=? from)%N then
    Some (0%N, 0%N)
  else if (2 <? length intervals)
          && (match intervals !! 2 with Some x => (x <=? from)%N | None => false end) then
    let intervals := take 1 intervals ++ drop 3 intervals in
    nextFrom ← intervals !! 1;
    if 2 <? length intervals then
      nextTo ← intervals !! 2; Some (nextFrom, nextTo)
    else Some (nextFrom, sessionAt self)
  else
    _ ← store_index intervals 1 from;
    Some (from, sessionAt self).

(** [var intervals []uint64]: the local variable starts as nil. *)
Definition nextBatch (self : incomingStreamer) (from : uint64)
  : option (uint64 * uint64) :=
  nextBatchFrom [] self from.

(** ** Sending *)

(** [SendPriority]: [self.pq.Push(nil, msg, int(priority))]. *)
Definition SendPriority (msg : Msg) (priority : uint8) : M unit := fun self =>
  match pq.Push (pq_ self) msg (N.to_nat priority) with
  | (None, q) =>
      (Ok tt, set_trace (trace self ++ [EvPush msg priority true]) (set_pq q self))
  | (Some e, q) =>
      (Err e, set_trace (trace self ++ [EvPush msg priority false]) (set_pq q self))
  end.

(** [Deliver]: wraps the chunk in a [ChunkDeliveryMsg] and pushes it. *)
Definition Deliver (chunk : Chunk) (priority : uint8) : M unit :=
  SendPriority (MChunkDelivery (ChunkDeliveryMsg.mk (cKey chunk) (cSData chunk) 0%N))
               priority.

(** [SendUnsyncedKeys(s, f, t)], with [s] the key of the entry. *)
Definition SendUnsyncedKeys (s : string) (f t : uint64) : M unit :=
  let* self := get in
  let* os := orPanic (outgoing self !! s) in
  let* _ := log (EvSetNextBatch s f t) in
  let* r := lift (SetNextBatch (oOutgoingStreamer os) f t) in
  let '(hashes, from, to, proof) := r in
  let* _ := modify (fun p =>
              set_outgoing (<[s := set_currentBatch hashes os]> (outgoing p)) p) in
  let msg := UnsyncedKeysMsg.mk "" [] from to hashes proof in
  SendPriority (MUnsyncedKeys msg) (opriority os).

(** ** The chunk store *)

(** Stores and closes, in program order. *)
Inductive dbEvent : Type :=
| DbPut (chunk : Chunk)
| DbClose (c : chan).

(** Modelled from the spec: [DbAccess] is not part of the sources at
    hand.  Section 6: [get(key)] returns the chunk or an error,
    [put(chunk)] stores it.  Section 4.5: [get_or_create_request(key)]
    returns a stored chunk with [created = false]; for an absent key it
    creates a placeholder with a fresh pending signal, stores it and
    returns [created = true].  The record also holds the channels made
    so far and the closed ones. *)
Record DbAccess : Type := mkDb {
  chunks : gmap bytes Chunk;
  chansMade : nat;
  closed : list chan;
  dbLog : list dbEvent
}.

Module db.

Definition get (key : bytes) (d : DbAccess) : result Chunk :=
  match chunks d !! key with
  | Some chunk => Ok chunk
  | None => Err ErrChunkNotFound
  end.

Definition put (chunk : Chunk) (d : DbAccess) : DbAccess :=
  mkDb (<[cKey chunk := chunk]> (chunks d)) (chansMade d) (closed d)
       (dbLog d ++ [DbPut chunk]).


Definition isClosed (c : chan) (d : DbAccess) : bool :=
  bool_decide (c ∈ closed d).

(** Go's [close(c)]: closing a nil or a closed channel panics. *)
Definition close (c : option chan) (d : DbAccess) : result unit * DbAccess :=
  match c with
  | None => (Panic, d)
  | Some c =>
      if isClosed c d then (Panic, d)
      else (Ok tt, mkDb (chunks d) (chansMade d) (c :: closed d)
                        (dbLog d ++ [DbClose c]))
  end.

End db.

(** ** The overlay *)

(** Modelled from the spec: the overlay is not part of the sources at
    hand.  Sections 4.6 and 6: [each_conn(key, max_po, fn)] invokes
    [fn(peer, po, is_nn)] for each connected peer in proximity order to
    [key] until [fn] returns false.  The connections are the per-peer
    streamer states; [order key] lists them (by index, with proximity
    order and nearest-neighbour flag) nearest first. *)
Record Overlay : Type := mkOverlay {
  conns : list StreamerPeer;
  order : bytes -> list (nat * nat * bool)
}.

Fixpoint eachConnLoop (l : list (nat * nat * bool))
    (fn : StreamerPeer -> nat -> bool -> bool * StreamerPeer)
    (cs : list StreamerPeer) : list StreamerPeer :=
  match l with
  | [] => cs
  | (i, po, nn) :: l' =>
      match cs !! i with
      | None => eachConnLoop l' fn cs
      | Some p =>
          let '(continue, p') := fn p po nn in
          let cs' := <[i := p']> cs in
          if continue then eachConnLoop l' fn cs' else cs'
      end
  end.

Definition EachConn (o : Overlay) (key : bytes) (maxPO : nat)
    (fn : StreamerPeer -> nat -> bool -> bool * StreamerPeer) : Overlay :=
  mkOverlay (eachConnLoop (order o key) fn (conns o)) (order o).

(** ** The Streamer *)

Record Streamer : Type := mkStreamer {
  Streamer_outgoing : gmap string (StreamerPeer -> bytes -> result OutgoingStreamer);
  Streamer_incoming : gmap string (StreamerPeer -> bytes -> result IncomingStreamer);
  dbAccess : DbAccess;
  overlay : Overlay;
  receiveC : list ChunkDeliveryMsg.t;
  peers : gmap nat StreamerPeer
}.

Definition set_overlay (o : Overlay) (s : Streamer) : Streamer :=
  mkStreamer (Streamer_outgoing s) (Streamer_incoming s) (dbAccess s) o
             (receiveC s) (peers s).
Definition set_peers (m : gmap nat StreamerPeer) (s : Streamer) : Streamer :=
  mkStreamer (Streamer_outgoing s) (Streamer_incoming s) (dbAccess s) (overlay s)
             (receiveC s) m.

Definition GetIncomingStreamer (self : Streamer) (stream : string)
  : result (StreamerPeer -> bytes -> result IncomingStreamer) :=
  match Streamer_incoming self !! stream with
  | Some f => Ok f
  | None => Err (ErrStreamNotRegistered stream)
  end.

Definition GetOutgoingStreamer (self : Streamer) (stream : string)
  : result (StreamerPeer -> bytes -> result OutgoingStreamer) :=
  match Streamer_outgoing self !! stream with
  | Some f => Ok f
  | None => Err (ErrStreamNotRegistered stream)
  end.

Definition getPeer (self : Streamer) (peerId : nat) : option StreamerPeer :=
  peers self !! peerId.

(** [Retrieve]: the callback sends a [RetrieveRequestMsg] at [Top]
    priority, drops the result of the send and stops the walk; the
    function returns nil whatever happened. *)
Definition Retrieve (chunk : Chunk) (self : Streamer) : result unit * Streamer :=
  let o := EachConn (overlay self) (cKey chunk) 255
             (fun sp po nn =>
                let '(_, sp') :=
                  SendPriority (MRetrieveRequest (RetrieveRequestMsg.mk (cKey chunk)))
                               Top sp in
                (false, sp')) in
  (Ok tt, set_overlay o self).

(** [Subscribe].  The peer is referred to by its id in the peer table;
    the result of the final [SendPriority] is dropped. *)
Definition Subscribe (peerId : nat) (s : string) (t : bytes) (from to : uint64)
    (priority : uint8) (live : bool) (self : Streamer) : result unit * Streamer :=
  match GetIncomingStreamer self s with
  | Err e => (Err e, self)
  | Panic => (Panic, self)
  | Ok f =>
      match getPeer self peerId with
      | None => (Err (ErrPeerNotFound peerId), self)
      | Some peer =>
          match f peer t with
          | Err e => (Err e, self)
          | Panic => (Panic, self)
          | Ok i =>
              match setIncomingStreamer s i priority live peer with
              | (Err e, _) => (Err e, self)
              | (Panic, _) => (Panic, self)
              | (Ok _, peer1) =>
                  let msg := SubscribeMsg.mk s t from to priority in
                  let '(_, peer2) := SendPriority (MSubscribe msg) priority peer1 in
                  (Ok tt, set_peers (<[peerId := peer2]> (peers self)) self)
              end
          end
      end
  end.

(** ** Protocol message handlers *)

Definition handleSubscribeMsg (streamer : Streamer) (req : SubscribeMsg.t) : M unit :=
  let* f := lift (GetOutgoingStreamer streamer (SubscribeMsg.Stream req)) in
  let* self := get in
  let* s := lift (f self (SubscribeMsg.Key req)) in
  let key := SubscribeMsg.Stream req +:+ string_of_bytes (SubscribeMsg.Key req) in
  let* r := attempt (setOutgoingStreamer key s (SubscribeMsg.Priority req)) in
  match r with
  | inl _ => ret tt
  | inr os =>
      let* _ := go (GoSendUnsyncedKeys os (SubscribeMsg.From req) (SubscribeMsg.To req)) in
      ret tt
  end.

(** [wg := sync.WaitGroup{}]: a new counter, referred to by its index. *)
Definition newWaitGroup : M nat := fun self =>
  (Ok (length (wgs self)), set_wgs (wgs self ++ [0]) self).

(** [wg.Add(1)]. *)
Definition wgAdd (wg : nat) : M unit := fun self =>
  match wgs self !! wg with
  | Some n => (Ok tt, set_wgs (<[wg := S n]> (wgs self)) self)
  | None => (Panic, self)
  end.

(** The loop of [handleUnsyncedKeysMsg]:
    [for i := 0; i < len(hashes)/HashSize; i += HashSize].  The index
    grows in every round, so [len(hashes)/HashSize] rounds of fuel are
    never used up. *)
Fixpoint unsyncedKeysLoop (fuel : nat) (stream : string) (s : incomingStreamer)
    (hashes : bytes) (wg : nat) (want : bv.BitVector) (i : nat) : M bv.BitVector :=
  match fuel with
  | 0 => ret want
  | S fuel' =>
      if i <? length hashes / HashSize then
        let* hash := orPanic (slice hashes i (i + HashSize)) in
        match NeedData (iIncomingStreamer s) hash with
        | Some wait =>
            let* _ := log (EvNeedData stream hash true) in
            let* want' := orPanic (bv.Set_ want i true) in
            let* _ := wgAdd wg in
            let* _ := go (GoWait wait wg) in
            unsyncedKeysLoop fuel' stream s hashes wg want' (i + HashSize)
        | None =>
            let* _ := log (EvNeedData stream hash false) in
            unsyncedKeysLoop fuel' stream s hashes wg want (i + HashSize)
        end
      else ret want
  end.

Definition handleUnsyncedKeysMsg (req : UnsyncedKeysMsg.t) : M unit :=
  let stream := UnsyncedKeysMsg.Stream req in
  let* s := getIncomingStreamer stream in
  let hashes := UnsyncedKeysMsg.Hashes req in
  let* want := lift (bv.New (length hashes / HashSize)) in
  let* wg := newWaitGroup in
  let* want := unsyncedKeysLoop (length hashes / HashSize) stream s hashes wg want 0 in
  let* _ := go (GoBatchDone stream wg req) in
  let* _ := if live s
            then modify (fun p =>
                   set_incoming
                     (alter (set_sessionAt (UnsyncedKeysMsg.From req)) stream (incoming p)) p)
            else ret tt in
  let* self := get in
  let* s' := orPanic (incoming self !! stream) in
  let* ft := orPanic (nextBatch s' (UnsyncedKeysMsg.To req)) in
  let '(from, to) := ft in
  if (from =? to)%N then ret tt
  else
    let msg := WantedKeysMsg.mk stream [] (bv.Bytes want) from to in
    let* _ := go (GoGatedSend stream msg) in
    ret tt.

(** The loop of [handleWantedKeysMsg]: [for i := 0; i < l; i++], with
    [n] the rounds left. *)
Fixpoint wantedKeysLoop (stream : string) (s : outgoingStreamer) (hashes : bytes)
    (want : bv.BitVector) (n i : nat) : M unit :=
  match n with
  | 0 => ret tt
  | S n' =>
      let* w := orPanic (bv.Get want i) in
      if w then
        let* hash := orPanic (slice hashes (i * HashSize) ((i + 1) * HashSize)) in
        match GetData (oOutgoingStreamer s) hash with
        | None =>
            let* _ := log (EvGetData stream hash false) in
            fail ErrNotFound
        | Some data =>
            let* _ := log (EvGetData stream hash true) in
            let chunk := mkChunk hash data None in
            let* _ := Deliver chunk (opriority s) in
            wantedKeysLoop stream s hashes want n' (S i)
        end
      else wantedKeysLoop stream s hashes want n' (S i)
  end.

Definition handleWantedKeysMsg (req : WantedKeysMsg.t) : M unit :=
  let stream := WantedKeysMsg.Stream req in
  let* s := getOutgoingStreamer stream in
  let hashes := currentBatch s in
  let* _ := go (GoSendUnsyncedKeys stream (WantedKeysMsg.From req) (WantedKeysMsg.To req)) in
  let l := length hashes / HashSize in
  let* want := lift (bv.NewFromBytes (WantedKeysMsg.Want req) l) in
  wantedKeysLoop stream s hashes want l 0.

Definition handleTakeoverProofMsg (req : TakeoverProofMsg.t) : M unit :=
  let* stream := orPanic (TakeoverProofMsg.Stream req) in
  let* _ := getOutgoingStreamer stream in
  ret tt.

(** ** Retrieve requests and the receive loop *)


(** One round of the loop of [processReceivedChunks], for the delivery
    [req] taken from [receiveC]. *)
Definition processReceivedChunk (req : ChunkDeliveryMsg.t) (d : DbAccess)
  : result unit * DbAccess :=
  match db.get (ChunkDeliveryMsg.Key req) d with
  | Ok chunk =>
      let chunk := mkChunk (cKey chunk) (ChunkDeliveryMsg.SData req) (ReqC chunk) in
      let d := db.put chunk d in
      db.close (ReqC chunk) d
  | _ => (Ok tt, d)
  end.


Definition handleChunkDeliveryMsg (req : ChunkDeliveryMsg.t) (streamer : Streamer)
  : result unit * Streamer :=
  match db.get (ChunkDeliveryMsg.Key req) (dbAccess streamer) with
  | Ok _ =>
      (Ok tt,
       mkStreamer (Streamer_outgoing streamer) (Streamer_incoming streamer)
                  (dbAccess streamer) (overlay streamer)
                  (receiveC streamer ++ [req]) (peers streamer))
  | Err e => (Err e, streamer)
  | Panic => (Panic, streamer)
  end.

(** [HandleMsg]: the dispatcher of the peer.  A [RetrieveRequestMsg]
    has no case and falls to the default. *)
Definition HandleMsg (msg : Msg) (streamer : Streamer) (self : StreamerPeer)
  : result unit * Streamer * StreamerPeer :=
  match msg with
  | MSubscribe m =>
      let '(r, self) := handleSubscribeMsg streamer m self in (r, streamer, self)
  | MUnsyncedKeys m =>
      let '(r, self) := handleUnsyncedKeysMsg m self in (r, streamer, self)
  | MTakeoverProof m =>
      let '(r, self) := handleTakeoverProofMsg m self in (r, streamer, self)
  | MWantedKeys m =>
      let '(r, self) := handleWantedKeysMsg m self in (r, streamer, self)
  | MChunkDelivery m =>
      let '(r, streamer) := handleChunkDeliveryMsg m streamer in (r, streamer, self)
  | MRetrieveRequest _ => (Err ErrUnknownMessage, streamer, self)
  end.

(** ** Goroutines *)

(** Which arm of a [select] a goroutine takes when several are ready. *)
Inductive arm : Type := ArmMain | ArmQuit | ArmTimeout.

Inductive stepResult : Type :=
| Blocked
| Stepped (p : StreamerPeer)
| Crashed (p : StreamerPeer).

(** Goroutine [i] returns. *)
Definition finish (i : nat) (p : StreamerPeer) : StreamerPeer :=
  set_goroutines (delete i (goroutines p)) p.

(** Goroutine [i] goes on as [g]. *)
Definition become (i : nat) (g : goroutine) (p : StreamerPeer) : StreamerPeer :=
  set_goroutines (<[i := g]> (goroutines p)) p.

Definition logged (e : event) (p : StreamerPeer) : StreamerPeer :=
  set_trace (trace p ++ [e]) p.

Definition withEntry (s : string) (f : incomingStreamer -> incomingStreamer)
    (p : StreamerPeer) : StreamerPeer :=
  set_incoming (alter f s (incoming p)) p.

(** One atomic step of goroutine [i] of the pool: up to and including
    its next blocking operation.  [d] gives the state of the channels. *)
Definition stepGoroutine (d : DbAccess) (i : nat) (a : arm) (self : StreamerPeer)
  : stepResult :=
  match goroutines self !! i with
  | None => Blocked
  | Some g =>
      match g, a with
      | GoSendUnsyncedKeys s f t, ArmMain =>
          match SendUnsyncedKeys s f t self with
          | (Panic, p) => Crashed p
          | (_, p) => Stepped (finish i p)
          end
      | GoWait w wg, ArmMain =>
          (* w() returns; wg.Done() *)
          match wgs self !! wg with
          | Some (S n) =>
              Stepped (finish i (logged (EvWaitDone w wg)
                                        (set_wgs (<[wg := n]> (wgs self)) self)))
          | _ => Crashed self
          end
      | GoBatchDone s wg req, ArmMain =>
          (* wg.Wait() *)
          match wgs self !! wg with
          | Some 0 =>
              match incoming self !! s, UnsyncedKeysMsg.Root req with
              | Some entry, Some root =>
                  let self1 :=
                    logged (EvBatchDone (UnsyncedKeysMsg.Stream req)
                                        (UnsyncedKeysMsg.From req)
                                        (UnsyncedKeysMsg.Hashes req)) self in
                  match BatchDone (iIncomingStreamer entry)
                                  (UnsyncedKeysMsg.Stream req) (UnsyncedKeysMsg.From req)
                                  (UnsyncedKeysMsg.Hashes req) root with
                  | Some (Ok tp) =>
                      let '(_, p) :=
                        SendPriority (MTakeoverProof tp) (ipriority entry) self1 in
                      Stepped (become i (GoSignalNext s) p)
                  | Some (Err _) => Stepped (finish i self1)
                  | Some Panic => Crashed self1
                  | None => Stepped (become i (GoSignalNext s) self1)
                  end
              | _, _ => Crashed self
              end
          | _ => Blocked
          end
      | GoSignalNext s, ArmMain =>
          (* s.next <- struct{}{}, on a channel of capacity 1 *)
          match incoming self !! s with
          | Some entry =>
              if next entry <? 1
              then Stepped (finish i (logged (EvNextSignal s)
                                             (withEntry s (set_next (S (next entry))) self)))
              else Blocked
          | None => Crashed self
          end
      | GoGatedSend s msg, ArmMain =>
          (* case <-s.next: *)
          match incoming self !! s with
          | Some entry =>
              match next entry with
              | S n =>
                  Stepped (become i (GoSendWanted s msg)
                                  (logged (EvNextTaken s) (withEntry s (set_next n) self)))
              | 0 => Blocked
              end
          | None => Crashed self
          end
      | GoGatedSend s msg, ArmQuit =>
          (* case <-s.quit: return; a nil channel is never ready *)
          match incoming self !! s with
          | Some entry =>
              match quit entry with
              | Some c =>
                  if db.isClosed c d then Stepped (finish i (logged (EvQuitTaken s) self))
                  else Blocked
              | None => Blocked
              end
          | None => Crashed self
          end
      | GoSendWanted s msg, ArmMain =>
          match incoming self !! s with
          | Some entry =>
              let '(_, p) := SendPriority (MWantedKeys msg) (ipriority entry) self in
              Stepped (finish i p)
          | None => Crashed self
          end
      | GoRetrieveWait chunk dc, ArmMain =>
          (* case <-chunk.ReqC: then streamer.deliveryC <- chunk *)
          match ReqC chunk with
          | Some c =>
              if db.isClosed c d
              then Stepped (finish i (set_deliveries (deliveries self ++ [(dc, chunk)]) self))
              else Blocked
          | None => Blocked
          end
      | GoRetrieveWait chunk dc, ArmQuit =>
          if quitClosed self then Stepped (finish i self) else Blocked
      | GoRetrieveWait chunk dc, ArmTimeout => Stepped (finish i self)
      | _, _ => Blocked
      end
  end.

(** What happens to a peer: a message arrives and is dispatched, or a
    goroutine of the pool is scheduled. *)
Inductive input : Type :=
| Arrive (msg : Msg)
| Sched (i : nat) (a : arm).

(** Runs a schedule.  The dispatcher carries on after a handler error;
    [None] when the schedule asks for a blocked goroutine or the
    program panics. *)
Fixpoint run (ins : list input) (streamer : Streamer) (self : StreamerPeer)
  : option (Streamer * StreamerPeer) :=
  match ins with
  | [] => Some (streamer, self)
  | Arrive msg :: ins' =>
      match HandleMsg msg streamer self with
      | (Panic, _, _) => None
      | (_, streamer', self') => run ins' streamer' self'
      end
  | Sched i a :: ins' =>
      match stepGoroutine (dbAccess streamer) i a self with
      | Stepped self' => run ins' streamer self'
      | _ => None
      end
  end.

(** ** Construction, registration and the peer table *)

(** [NewStreamer]: empty registries and peer table.  The receive
    channel is given by the deliveries waiting on it. *)
Definition NewStreamer (overlay : Overlay) (dbAccess : DbAccess) : Streamer :=
  mkStreamer ∅ ∅ dbAccess overlay [] ∅.

(** [RegisterIncomingStreamer], for a constructor that is not nil. *)
Definition RegisterIncomingStreamer (stream : string)
    (f : StreamerPeer -> bytes -> result IncomingStreamer) (self : Streamer) : Streamer :=
  mkStreamer (Streamer_outgoing self) (<[stream := f]> (Streamer_incoming self))
             (dbAccess self) (overlay self) (receiveC self) (peers self).

(** [RegisterOutgoingStreamer], for a constructor that is not nil. *)
Definition RegisterOutgoingStreamer (stream : string)
    (f : StreamerPeer -> bytes -> result OutgoingStreamer) (self : Streamer) : Streamer :=
  mkStreamer (<[stream := f]> (Streamer_outgoing self)) (Streamer_incoming self)
             (dbAccess self) (overlay self) (receiveC self) (peers self).

(** [setPeer]: [self.peers[peer.ID()] = peer]. *)
Definition setPeer (peer : StreamerPeer) (self : Streamer) : Streamer :=
  set_peers (<[ID peer := peer]> (peers self)) self.

(** [deletePeer]: [delete(self.peers, peer.ID())]. *)
Definition deletePeer (peer : StreamerPeer) (self : Streamer) : Streamer :=
  set_peers (delete (ID peer) (peers self)) self.

(** ** Notions used to state the properties *)

(** The [i]-th hash of a batch: [hashes[i*HashSize : (i+1)*HashSize]]. *)
Definition hashAt (hashes : bytes) (i : nat) : bytes :=
  take HashSize (drop (i * HashSize) hashes).

(** Whether bit [i] of a want vector is set. *)
Definition wanted (want : bv.BitVector) (i : nat) : bool :=
  default false (bv.Get want i).

(** The [ChunkDeliveryMsg] for the [i]-th hash of a batch, when the
    handler has its data. *)
Definition deliveryFor (s : outgoingStreamer) (hashes : bytes) (i : nat) : option Msg :=
  (fun data => MChunkDelivery (ChunkDeliveryMsg.mk (hashAt hashes i) data 0%N))
    <$> GetData (oOutgoingStreamer s) (hashAt hashes i).

(** The deliveries for the set bits among [first .. first + k - 1], in
    order. *)
Definition deliveriesFor (s : outgoingStreamer) (hashes : bytes)
    (want : bv.BitVector) (first k : nat) : list Msg :=
  omap (fun i => if wanted want i then deliveryFor s hashes i else None) (seq first k).

(** How the loop of [handleWantedKeysMsg] ends, having gone through
    [k] of the [n] bits from [first] on. *)
Definition loopEnd (s : outgoingStreamer) (hashes : bytes) (want : bv.BitVector)
    (first n k : nat) (r : result unit) (p : StreamerPeer) : Prop :=
  match r with
  | Ok _ => k = n
  | Err e =>
      k < n /\ wanted want (first + k) = true /\
      ((e = ErrNotFound /\
        GetData (oOutgoingStreamer s) (hashAt hashes (first + k)) = None) \/
       (e = ErrQueueFull /\
        is_Some (GetData (oOutgoingStreamer s) (hashAt hashes (first + k))) /\
        pq.has_room (pq_ p) (N.to_nat (opriority s)) = false))
  | Panic => False
  end.

(** A goroutine that waits for a chunk on behalf of WaitGroup [wg]. *)
Definition isWaitOf (wg : nat) (g : goroutine) : Prop :=
  match g with GoWait _ wg' => wg' = wg | _ => False end.

(** An event that records a call of [NeedData]. *)
Definition isNeedData (e : event) : Prop :=
  match e with EvNeedData _ _ _ => True | _ => False end.


(** The [WantedKeysMsg]s accepted by the priority queue at a level. *)
Definition wantedKeysSent (p : StreamerPeer) (priority : uint8) : list WantedKeysMsg.t :=
  omap (fun m => match m with MWantedKeys w => Some w | _ => None end)
       (pq.level (pq_ p) (N.to_nat priority)).

(** ** Counting goroutines and events *)

(** How many elements of a list a test accepts. *)
Fixpoint count {A} (f : A -> bool) (l : list A) : nat :=
  match l with
  | [] => 0
  | x :: l' => (if f x then 1 else 0) + count f l'
  end.

Definition isWaitB (wg : nat) (g : goroutine) : bool :=
  match g with GoWait _ wg' => wg' =? wg | _ => false end.

(** The running waits of WaitGroup [wg]. *)
Definition waitersOf (wg : nat) (gs : list goroutine) : nat := count (isWaitB wg) gs.

Definition isSendWantedB (s : string) (g : goroutine) : bool :=
  match g with GoSendWanted s' _ => bool_decide (s' = s) | _ => false end.

Definition isSignalNextB (s : string) (g : goroutine) : bool :=
  match g with GoSignalNext s' => bool_decide (s' = s) | _ => false end.

Definition isTakenB (s : string) (e : event) : bool :=
  match e with EvNextTaken s' => bool_decide (s' = s) | _ => false end.

Definition isSignalB (s : string) (e : event) : bool :=
  match e with EvNextSignal s' => bool_decide (s' = s) | _ => false end.

Definition isBatchDoneB (s : string) (e : event) : bool :=
  match e with EvBatchDone s' _ _ => bool_decide (s' = s) | _ => false end.

(** A [WantedKeysMsg] for stream [s] accepted by the queue. *)
Definition isWantedSentB (s : string) (e : event) : bool :=
  match e with
  | EvPush (MWantedKeys m) _ true => bool_decide (WantedKeysMsg.Stream m = s)
  | _ => false
  end.

(** Events that are neither a token taken from or put on [next], nor a
    call of [BatchDone], nor the push of a [WantedKeysMsg]. *)
Definition quietEvent (e : event) : Prop :=
  match e with
  | EvNeedData _ _ _ | EvGetData _ _ _ | EvSetNextBatch _ _ _
  | EvWaitDone _ _ | EvQuitTaken _ => True
  | EvPush (MWantedKeys _) _ _ => False
  | EvPush _ _ _ => True
  | _ => False
  end.

(** A goroutine refers to the stream of the message it carries. *)
Definition wellFormed (g : goroutine) : Prop :=
  match g with
  | GoGatedSend s m | GoSendWanted s m => WantedKeysMsg.Stream m = s
  | GoBatchDone s _ req => UnsyncedKeysMsg.Stream req = s
  | _ => True
  end.

(** The goroutines a message handler starts besides the waits. *)
Definition starter (g : goroutine) : Prop :=
  match g with
  | GoSendUnsyncedKeys _ _ _ => True
  | GoBatchDone s _ req => UnsyncedKeysMsg.Stream req = s
  | GoGatedSend s m => WantedKeysMsg.Stream m = s
  | _ => False
  end.

(** The tokens on the [next] channel of stream [s]. *)
Definition nextOf (s : string) (p : StreamerPeer) : nat :=
  default 0 (next <$> incoming p !! s).

(** The counter of every WaitGroup is the number of its running waits. *)
Definition barrier (p : StreamerPeer) : Prop :=
  forall wg, waitersOf wg (goroutines p) = default 0 (wgs p !! wg).

(** The bookkeeping of the gate of stream [s], with [c] the tokens it
    started with: tokens are conserved, a send follows a token taken,
    and a token put follows a call of [BatchDone]. *)
Definition gate (s : string) (c : nat) (p : StreamerPeer) : Prop :=
  Forall wellFormed (goroutines p) /\
  nextOf s p + count (isTakenB s) (trace p) = c + count (isSignalB s) (trace p) /\
  count (isWantedSentB s) (trace p) + count (isSendWantedB s) (goroutines p)
    <= count (isTakenB s) (trace p) /\
  count (isSignalB s) (trace p) + count (isSignalNextB s) (goroutines p)
    <= count (isBatchDoneB s) (trace p).

(** What a message handler may do to the peer: it leaves the [next]
    channels alone, records quiet events, and starts goroutines, either
    without a new WaitGroup, or with one whose counter is the number of
    waits started on it. *)
Definition handlerEffect (self p : StreamerPeer) : Prop :=
  (forall x, nextOf x p = nextOf x self) /\
  (exists evs, trace p = trace self ++ evs /\ Forall quietEvent evs) /\
  ((wgs p = wgs self /\
    exists gs, goroutines p = goroutines self ++ gs /\ Forall starter gs) \/
   (exists waits gs,
      wgs p = wgs self ++ [length waits] /\
      goroutines p = goroutines self ++ waits ++ gs /\
      Forall (isWaitOf (length (wgs self))) waits /\ Forall starter gs)).

(** ** Concrete streams, peers and messages *)

Module Ex.

Definition h1 : bytes := replicate 32 x01.
Definition h2 : bytes := replicate 32 x02.
Definition h3 : bytes := replicate 32 x03.
Definition h4 : bytes := replicate 32 x04.
Definition data : bytes := [x61; x62; x63].

Definition proof0 : HandoverProof :=
  mkHandoverProof [] (Some (mkHandover "live" 0 0 [])).

(** An incoming handler that needs every hash. *)
Definition needAll : IncomingStreamer :=
  mkIncoming (fun _ => Some 0) (fun _ _ _ _ => None).

(** An incoming handler that needs [h1] only. *)
Definition needFirst : IncomingStreamer :=
  mkIncoming (fun h => if decide (h = h1) then Some 7 else None)
             (fun _ _ _ _ => None).

(** An outgoing handler that offers [h1 .. h4] and serves every hash. *)
Definition serveAll : OutgoingStreamer :=
  mkOutgoing (fun f t => Ok (h1 ++ h2 ++ h3 ++ h4, f, t, Some proof0))
             (fun _ => Some data) None.

(** An outgoing handler that cannot serve [h1]. *)
Definition serveButFirst : OutgoingStreamer :=
  mkOutgoing (fun f t => Ok (h1 ++ h2, f, t, Some proof0))
             (fun h => if decide (h = h1) then None else Some data) None.

Definition emptyDb : DbAccess := mkDb ∅ 0 [] [].
Definition noOverlay : Overlay := mkOverlay [] (fun _ => []).

Definition streamer0 : Streamer :=
  mkStreamer {[ "sync" := fun _ _ => Ok serveAll ]}
             {[ "live" := fun _ _ => Ok needFirst ]}
             emptyDb noOverlay [] {[ 1 := NewStreamerPeer 1 ]}.

(** The streamer and the peer after [Subscribe(1, "live", nil, 0, 0, Mid, true)]. *)
Definition streamer1 : Streamer :=
  snd (Subscribe 1 "live" [] 0 0 Mid true streamer0).
Definition peer1 : StreamerPeer :=
  default (NewStreamerPeer 1) (peers streamer1 !! 1).

(** A peer with a live incoming stream that needs every hash. *)
Definition peerNeedAll : StreamerPeer :=
  snd (setIncomingStreamer "live" needAll Mid true (NewStreamerPeer 1)).

(** Two offered batches: the first offers [h1], the second [h2]. *)
Definition batch1 : UnsyncedKeysMsg.t :=
  UnsyncedKeysMsg.mk "live" [] 10 11 h1 (Some proof0).
Definition batch2 : UnsyncedKeysMsg.t :=
  UnsyncedKeysMsg.mk "live" [] 11 12 h2 (Some proof0).

(** A batch that offers the two hashes [h1], [h2]. *)
Definition batch12 : UnsyncedKeysMsg.t :=
  UnsyncedKeysMsg.mk "live" [] 10 11 (h1 ++ h2) (Some proof0).

(** Both batches arrive; the gated sender of each is run as soon as
    it can, while the wait for [h1] has not returned. *)
Definition overtaking : list input :=
  [ Arrive (MUnsyncedKeys batch1);
    Sched 2 ArmMain; Sched 2 ArmMain;
    Arrive (MUnsyncedKeys batch2);
    Sched 2 ArmMain; Sched 2 ArmMain;
    Sched 2 ArmMain; Sched 2 ArmMain ].

(** A peer with an outgoing stream registered under [s], with the
    given handler, priority [Mid] and current batch. *)
Definition peerOut (s : string) (o : OutgoingStreamer) (batch : bytes) : StreamerPeer :=
  set_outgoing {[ s := mkOutgoingStreamer o Mid batch ]} (NewStreamerPeer 1).


(** A historical incoming stream with session mark 1000. *)
Definition historical : incomingStreamer :=
  mkIncomingStreamer needAll Mid 1000 false None 1.

(** A chunk store holding a placeholder for [h1], whose data is
    awaited on channel 0. *)
Definition dbPending : DbAccess :=
  mkDb {[ h1 := NewChunk h1 (Some 0) ]} 1 [] [].

(** A streamer whose overlay has one connection, with the [Top] level
    of its queue full. *)
Definition peerTopFull : StreamerPeer :=
  let m := MRetrieveRequest (RetrieveRequestMsg.mk []) in
  set_pq (pq.mkPQ [[]; []; []; []; [m; m; m]] PriorityQueueCap) (NewStreamerPeer 2).
Definition streamerTopFull : Streamer :=
  mkStreamer ∅ ∅ emptyDb (mkOverlay [peerTopFull] (fun _ => [(0, 0, true)])) [] ∅.

End Ex.

(** * Properties *)

(** ** Pushing to the queue *)

Lemma Push_room {A} (q : pq.PriorityQueue A) (x : A) (p : nat) :
  pq.has_room q p = true ->
  exists q', pq.Push q x p = (None, q') /\
    pq.level q' p = pq.level q p ++ [x] /\
    (forall p', p' <> p -> pq.level q' p' = pq.level q p').
Proof.
  unfold pq.has_room, pq.Push, pq.level. intros H.
  destruct (pq.Queues q !! p) as [lvl |] eqn:Hl; [| done].
  rewrite H. eexists. split; [reflexivity |]. simpl. split.
  - rewrite list_lookup_insert_eq; [done |]. by eapply lookup_lt_Some.
  - intros p' Hne. by rewrite list_lookup_insert_ne.
Qed.

Lemma Push_full {A} (q : pq.PriorityQueue A) (x : A) (p : nat) :
  pq.has_room q p = false -> pq.Push q x p = (Some ErrQueueFull, q).
Proof.
  unfold pq.has_room, pq.Push. intros H.
  destruct (pq.Queues q !! p) as [lvl |]; [by rewrite H | done].
Qed.

Lemma SendPriority_room (msg : Msg) (priority : uint8) (self : StreamerPeer) :
  pq.has_room (pq_ self) (N.to_nat priority) = true ->
  exists p, SendPriority msg priority self = (Ok tt, p) /\
    pq.level (pq_ p) (N.to_nat priority)
      = pq.level (pq_ self) (N.to_nat priority) ++ [msg] /\
    (forall p', p' <> N.to_nat priority ->
       pq.level (pq_ p) p' = pq.level (pq_ self) p') /\
    outgoing p = outgoing self.
Proof.
  intros H. destruct (Push_room (pq_ self) msg _ H) as (q' & Hq & Hl & Ho).
  unfold SendPriority. rewrite Hq. eexists. split; [reflexivity |]. done.
Qed.

Lemma SendPriority_full (msg : Msg) (priority : uint8) (self : StreamerPeer) :
  pq.has_room (pq_ self) (N.to_nat priority) = false ->
  exists p, SendPriority msg priority self = (Err ErrQueueFull, p) /\
    pq_ p = pq_ self /\ outgoing p = outgoing self.
Proof.
  intros H. unfold SendPriority. rewrite (Push_full _ _ _ H).
  eexists. split; [reflexivity |]. done.
Qed.

(** ** The want vector of an offered batch *)

(** C1.  The claim is that after an [UnsyncedKeysMsg] every offered
    hash has been given to [NeedData] once and that bit [i] of the want
    vector is set exactly when the [i]-th hash is needed.  The loop of
    the handler steps its index by [HashSize] while its bound counts
    hashes: for the batch of the two hashes [h1], [h2], both needed,
    only [h1] is given to [NeedData], one wait is started, and the want
    vector sent back is [01] instead of [11]. *)
Theorem handleUnsyncedKeysMsg_consults_first_hash_only :
  let '(r, p) := handleUnsyncedKeysMsg Ex.batch12 Ex.peerNeedAll in
  r = Ok tt /\
  NeedData Ex.needAll Ex.h1 = Some 0 /\
  NeedData Ex.needAll Ex.h2 = Some 0 /\
  trace p = [EvNeedData "live" Ex.h1 true] /\
  wgs p = [1] /\
  goroutines p =
    [ GoWait 0 0;
      GoBatchDone "live" 0 Ex.batch12;
      GoGatedSend "live" (WantedKeysMsg.mk "live" [] [x01] 11 0) ].
Proof. vm_compute. repeat split; reflexivity. Qed.

Lemma bind_Ok {A B} (m : M A) (k : A -> M B) (self p : StreamerPeer) (a : A) :
  m self = (Ok a, p) -> bind m k self = k a p.
Proof. intros H. unfold bind. by rewrite H. Qed.

Lemma unsyncedKeysLoop_done fuel stream s hashes wg want i :
  length hashes / HashSize <= i ->
  unsyncedKeysLoop fuel stream s hashes wg want i = ret want.
Proof.
  intros H. destruct fuel; [done |]. cbn [unsyncedKeysLoop].
  destruct (Nat.ltb_spec i (length hashes / HashSize)); [lia | done].
Qed.

(** For a batch of up to [HashSize] hashes the loop makes one round. *)
Lemma unsyncedKeysLoop_one_round
    (stream : string) (s : incomingStreamer) (hashes : bytes) (wg : nat)
    (self : StreamerPeer) :
  1 <= length hashes / HashSize <= HashSize ->
  wg < length (wgs self) ->
  exists want p,
    unsyncedKeysLoop (length hashes / HashSize) stream s hashes wg
      (bv.mkBV (length hashes / HashSize)
               (replicate (bv.nbytes (length hashes / HashSize)) x00)) 0 self
      = (Ok want, p) /\
    incoming p = incoming self /\
    trace p = trace self
      ++ [EvNeedData stream (hashAt hashes 0)
            (bool_decide (is_Some (NeedData (iIncomingStreamer s) (hashAt hashes 0))))].
Proof.
  intros Hk Hwg.
  assert (Hlen : HashSize <= length hashes).
  { pose proof (Nat.Div0.mul_div_le (length hashes) HashSize).
    unfold HashSize in *. lia. }
  assert (Hslice : slice hashes 0 (0 + HashSize) = Some (hashAt hashes 0)).
  { unfold slice, hashAt. rewrite Nat.add_0_l, Nat.mul_0_l, Nat.sub_0_r.
    rewrite (proj2 (Nat.leb_le _ _)) by lia.
    rewrite (proj2 (Nat.leb_le _ _)) by lia. done. }
  assert (Hnb : exists m, bv.nbytes (length hashes / HashSize) = S m).
  { unfold bv.nbytes. destruct ((length hashes / HashSize + 7) / 8) eqn:E; [| eauto].
    apply Nat.div_small_iff in E; lia. }
  destruct Hnb as [m Hm]. rewrite Hm.
  remember (length hashes / HashSize) as k eqn:Ek.
  destruct k as [| k']; [lia |].
  cbn [unsyncedKeysLoop]. rewrite <- Ek.
  rewrite (proj2 (Nat.ltb_lt 0 (S k'))) by lia.
  rewrite (bind_Ok _ _ self self (hashAt hashes 0)) by (by rewrite Hslice).
  destruct (lookup_lt_is_Some_2 (wgs self) wg Hwg) as [n Hn].
  destruct (NeedData (iIncomingStreamer s) (hashAt hashes 0)) as [wait |].
  - rewrite bool_decide_eq_true_2 by eauto.
    eexists _, _. split; [| split].
    + erewrite bind_Ok by reflexivity.
      erewrite bind_Ok by reflexivity.
      erewrite bind_Ok by (unfold wgAdd; simpl; rewrite Hn; reflexivity).
      erewrite bind_Ok by reflexivity.
      rewrite unsyncedKeysLoop_done by (rewrite <- Ek; rewrite Nat.add_0_l; lia).
      reflexivity.
    + reflexivity.
    + reflexivity.
  - rewrite bool_decide_eq_false_2 by (intros [? ?]; done).
    eexists _, _. split; [| split].
    + erewrite bind_Ok by reflexivity.
      rewrite unsyncedKeysLoop_done by (rewrite <- Ek; rewrite Nat.add_0_l; lia).
      reflexivity.
    + reflexivity.
    + reflexivity.
Qed.

(** For every batch of up to [HashSize] hashes offered on a live
    stream the handler gives the first hash to [NeedData] and no other. *)
Lemma handleUnsyncedKeysMsg_one_call
    (req : UnsyncedKeysMsg.t) (self : StreamerPeer) (s : incomingStreamer) :
  incoming self !! UnsyncedKeysMsg.Stream req = Some s ->
  live s = true ->
  1 <= length (UnsyncedKeysMsg.Hashes req) / HashSize <= HashSize ->
  exists p,
    handleUnsyncedKeysMsg req self = (Ok tt, p) /\
    trace p
    = trace self
      ++ [EvNeedData (UnsyncedKeysMsg.Stream req)
            (hashAt (UnsyncedKeysMsg.Hashes req) 0)
            (bool_decide (is_Some (NeedData (iIncomingStreamer s)
                                     (hashAt (UnsyncedKeysMsg.Hashes req) 0))))].
Proof.
  intros Hs Hlive Hk.
  unfold handleUnsyncedKeysMsg.
  rewrite (bind_Ok _ _ self self s) by (unfold getIncomingStreamer; by rewrite Hs).
  erewrite bind_Ok by reflexivity.
  erewrite bind_Ok by reflexivity.
  destruct (unsyncedKeysLoop_one_round (UnsyncedKeysMsg.Stream req) s
              (UnsyncedKeysMsg.Hashes req) (length (wgs self))
              (set_wgs (wgs self ++ [0]) self) Hk)
    as (want & p1 & Hloop & Hinc & Htr).
  { simpl. rewrite length_app. simpl. lia. }
  rewrite (bind_Ok _ _ _ _ _ Hloop).
  erewrite bind_Ok by reflexivity.
  rewrite Hlive.
  erewrite bind_Ok by reflexivity.
  erewrite bind_Ok by reflexivity.
  erewrite bind_Ok; cycle 1.
  { simpl. rewrite lookup_alter_eq, Hinc. simpl. rewrite Hs. reflexivity. }
  erewrite bind_Ok; cycle 1.
  { unfold nextBatch, nextBatchFrom. simpl. rewrite Hlive. reflexivity. }
  cbv beta iota. destruct (N.eqb _ _).
  - eexists. split; [reflexivity |]. simpl. exact Htr.
  - eexists. split; [reflexivity |]. simpl. exact Htr.
Qed.

(** ** Gating of the WantedKeys reply *)

(** C2.  The claim is that the [WantedKeysMsg] of a batch is sent only
    after every wait of the batch before it has returned and its
    [BatchDone] has run.  The reply waits for a token on [next], and a
    token is put by the goroutine of any batch, also of the batch the
    reply belongs to.  On a live stream, batch 1 offers the needed
    [h1], batch 2 offers [h2], not needed: the reply of batch 1 takes
    the token put at subscription, the goroutine of batch 2 puts a new
    one at once, and the reply of batch 2 is accepted by the queue
    while the wait for [h1] is still running and [BatchDone] of batch 1
    has not been called. *)
Theorem wantedKeys_overtakes_previous_batch :
  let w1 := WantedKeysMsg.mk "live" [] [x01] 11 0 in
  let w2 := WantedKeysMsg.mk "live" [] [x00] 12 0 in
  exists st p,
    run Ex.overtaking Ex.streamer1 Ex.peer1 = Some (st, p) /\
    wantedKeysSent p Mid = [w1; w2] /\
    goroutines p = [GoWait 7 0; GoBatchDone "live" 0 Ex.batch1] /\
    wgs p = [1; 0] /\
    trace p =
      [ EvPush (MSubscribe (SubscribeMsg.mk "live" [] 0 0 Mid)) Mid true;
        EvNeedData "live" Ex.h1 true;
        EvNextTaken "live";
        EvPush (MWantedKeys w1) Mid true;
        EvNeedData "live" Ex.h2 false;
        EvBatchDone "live" 11 Ex.h2;
        EvNextSignal "live";
        EvNextTaken "live";
        EvPush (MWantedKeys w2) Mid true ].
Proof.
  eexists _, _. split; [vm_compute; reflexivity |].
  vm_compute. repeat split; reflexivity.
Qed.

(** The gated sender goes on to its send only by taking a token from
    [next]. *)
Lemma gated_send_takes_token
    (d : DbAccess) (i : nat) (self p : StreamerPeer) (s : string)
    (msg : WantedKeysMsg.t) :
  goroutines self !! i = Some (GoGatedSend s msg) ->
  stepGoroutine d i ArmMain self = Stepped p ->
  exists entry n,
    incoming self !! s = Some entry /\ next entry = S n /\
    next <$> incoming p !! s = Some n /\
    goroutines p !! i = Some (GoSendWanted s msg) /\
    pq_ p = pq_ self.
Proof.
  intros Hg. unfold stepGoroutine. rewrite Hg.
  destruct (incoming self !! s) as [entry |] eqn:He; [| done].
  destruct (next entry) as [| n] eqn:Hn; [done |].
  intros [= <-]. exists entry, n. repeat split; try done.
  - simpl. rewrite lookup_alter_eq, He. done.
  - simpl. apply list_lookup_insert_eq. by eapply lookup_lt_Some.
Qed.

(** When the sender takes the quit arm it returns: nothing is queued.
    The arm needs a [quit] channel that exists and is closed. *)
Lemma gated_send_quit_drops
    (d : DbAccess) (i : nat) (self p : StreamerPeer) (s : string)
    (msg : WantedKeysMsg.t) :
  goroutines self !! i = Some (GoGatedSend s msg) ->
  stepGoroutine d i ArmQuit self = Stepped p ->
  goroutines p = delete i (goroutines self) /\
  pq_ p = pq_ self /\
  exists entry c, incoming self !! s = Some entry /\ quit entry = Some c /\
                  db.isClosed c d = true.
Proof.
  intros Hg. unfold stepGoroutine. rewrite Hg.
  destruct (incoming self !! s) as [entry |] eqn:He; [| done].
  destruct (quit entry) as [c |] eqn:Hq; [| done].
  destruct (db.isClosed c d) eqn:Hc; [| done].
  intros [= <-]. repeat split; eauto.
Qed.

(** An entry made by [setIncomingStreamer] has a nil [quit] and one
    token on [next]. *)
Lemma setIncomingStreamer_entry
    (s : string) (i : IncomingStreamer) (priority : uint8) (lv : bool)
    (self p : StreamerPeer) :
  setIncomingStreamer s i priority lv self = (Ok tt, p) ->
  incoming p !! s = Some (mkIncomingStreamer i priority 0%N lv None 1).
Proof.
  unfold setIncomingStreamer. destruct (incoming self !! s); [done |].
  intros [= <-]. simpl. apply lookup_insert_eq.
Qed.

(** ** Serving the wanted hashes *)

Lemma nbytes_covers (l i : nat) : i < l -> i / 8 < bv.nbytes l.
Proof.
  intros H. unfold bv.nbytes. apply Nat.Div0.div_lt_upper_bound.
  pose proof (Nat.div_mod (l + 7) 8 ltac:(lia)) as Hdm.
  pose proof (Nat.mod_upper_bound (l + 7) 8 ltac:(lia)). lia.
Qed.

Lemma NewFromBytes_Get (buf : bytes) (l : nat) (want : bv.BitVector) (i : nat) :
  bv.NewFromBytes buf l = Ok want -> i < l -> is_Some (bv.Get want i).
Proof.
  unfold bv.NewFromBytes, bv.Get. intros H Hi.
  destruct (length buf =? bv.nbytes l) eqn:Hlen; [| done].
  injection H as <-. simpl. apply Nat.eqb_eq in Hlen.
  apply fmap_is_Some, lookup_lt_is_Some. rewrite Hlen. by apply nbytes_covers.
Qed.

Lemma slice_hashAt (hashes : bytes) (i : nat) :
  (i + 1) * HashSize <= length hashes ->
  slice hashes (i * HashSize) ((i + 1) * HashSize) = Some (hashAt hashes i).
Proof.
  intros H. unfold slice, hashAt.
  replace ((i + 1) * HashSize - i * HashSize) with HashSize by lia.
  rewrite (proj2 (Nat.leb_le _ _)) by lia.
  rewrite (proj2 (Nat.leb_le _ _)) by lia. reflexivity.
Qed.

Lemma deliveriesFor_skip s hashes want i k :
  wanted want i = false ->
  deliveriesFor s hashes want i (S k) = deliveriesFor s hashes want (S i) k.
Proof. intros H. unfold deliveriesFor. simpl. by rewrite H. Qed.

Lemma deliveriesFor_serve s hashes want i k data :
  wanted want i = true ->
  GetData (oOutgoingStreamer s) (hashAt hashes i) = Some data ->
  deliveriesFor s hashes want i (S k)
    = MChunkDelivery (ChunkDeliveryMsg.mk (hashAt hashes i) data 0%N)
        :: deliveriesFor s hashes want (S i) k.
Proof.
  intros H Hd. unfold deliveriesFor. simpl. rewrite H. unfold deliveryFor.
  by rewrite Hd.
Qed.

Lemma wantedKeysLoop_spec (stream : string) (s : outgoingStreamer) (hashes : bytes)
    (want : bv.BitVector) (n : nat) :
  forall (i : nat) (self : StreamerPeer),
    (forall j, i <= j < i + n -> is_Some (bv.Get want j)) ->
    (i + n) * HashSize <= length hashes ->
    exists k r p,
      wantedKeysLoop stream s hashes want n i self = (r, p) /\
      k <= n /\
      (forall j, i <= j < i + k -> wanted want j = true ->
         is_Some (GetData (oOutgoingStreamer s) (hashAt hashes j))) /\
      pq.level (pq_ p) (N.to_nat (opriority s))
        = pq.level (pq_ self) (N.to_nat (opriority s))
          ++ deliveriesFor s hashes want i k /\
      (forall p', p' <> N.to_nat (opriority s) ->
         pq.level (pq_ p) p' = pq.level (pq_ self) p') /\
      loopEnd s hashes want i n k r p.
Proof.
  induction n as [| n IH]; intros i self Hget Hlen.
  - exists 0, (Ok tt), self. simpl. unfold deliveriesFor. simpl.
    rewrite app_nil_r. repeat split; try done. intros; lia.
  - simpl. unfold bind at 1.
    destruct (Hget i ltac:(lia)) as [w Hw]. rewrite Hw. simpl.
    assert (Hwanted : wanted want i = w) by (unfold wanted; by rewrite Hw).
    destruct w.
    + (* the bit is set *)
      unfold bind at 1. rewrite slice_hashAt by (unfold HashSize in *; lia). simpl.
      destruct (GetData (oOutgoingStreamer s) (hashAt hashes i)) as [data |] eqn:Hdata.
      * unfold bind at 1, log, modify. simpl. unfold bind at 1, Deliver. simpl.
        match goal with |- context [SendPriority ?m ?pr ?st] =>
          set (msg := m); set (st1 := st) end.
        destruct (pq.has_room (pq_ st1) (N.to_nat (opriority s))) eqn:Hroom.
        -- destruct (SendPriority_room msg _ st1 Hroom) as (p1 & Hp1 & Hl1 & Ho1 & _).
           rewrite Hp1.
           destruct (IH (S i) p1) as (k & r & p & Hrun & Hk & Hserved & Hl & Ho & Hend).
           { intros j Hj. apply Hget. lia. }
           { lia. }
           exists (S k), r, p. rewrite Hrun. split; [done |]. split; [lia |].
           split; [| split; [| split]].
           ++ intros j Hj Hwj. destruct (decide (j = i)) as [-> | Hne].
              ** rewrite Hdata. eauto.
              ** apply Hserved; [lia | done].
           ++ rewrite Hl, Hl1. rewrite (deliveriesFor_serve _ _ _ _ _ data) by done.
              by rewrite <- app_assoc.
           ++ intros p' Hp'. rewrite Ho, Ho1; done.
           ++ unfold loopEnd in *. destruct r as [| e |]; [lia | | done].
              replace (i + S k) with (S i + k) by lia.
              destruct Hend as (? & ? & ?). split; [lia | done].
        -- destruct (SendPriority_full msg _ st1 Hroom) as (p1 & Hp1 & Hq1 & _).
           rewrite Hp1. exists 0, (Err ErrQueueFull), p1.
           split; [done |]. split; [lia |]. split; [intros; lia |].
           rewrite Hq1. unfold deliveriesFor. simpl. rewrite app_nil_r.
           split; [done |]. split; [done |].
           unfold loopEnd. rewrite Nat.add_0_r. split; [lia |]. split; [done |].
           right. rewrite Hdata, Hq1. eauto.
      * unfold bind at 1, log, modify, fail. simpl.
        eexists 0, (Err ErrNotFound), _. split; [reflexivity |].
        split; [lia |]. split; [intros; lia |]. simpl.
        unfold deliveriesFor. simpl. rewrite app_nil_r.
        split; [done |]. split; [done |].
        unfold loopEnd. rewrite Nat.add_0_r. split; [lia |]. split; [done |].
        by left.
    + (* the bit is not set *)
      destruct (IH (S i) self) as (k & r & p & Hrun & Hk & Hserved & Hl & Ho & Hend).
      { intros j Hj. apply Hget. lia. }
      { lia. }
      exists (S k), r, p. split; [done |]. split; [lia |].
      split; [| split; [| split]].
      * intros j Hj Hwj. destruct (decide (j = i)) as [-> | Hne]; [congruence |].
        apply Hserved; [lia | done].
      * rewrite Hl. by rewrite deliveriesFor_skip.
      * done.
      * unfold loopEnd in *. destruct r as [| e |]; [lia | | done].
        replace (i + S k) with (S i + k) by lia.
        destruct Hend as (? & ? & ?). split; [lia | done].
Qed.

(** C3, as the code has it.  For a registered outgoing stream and a
    well-formed want vector the handler goes through the bits in order
    and stops at some bit [k]: each set bit before [k] had its data and
    got exactly one [ChunkDeliveryMsg], with the hash as key and that
    data, appended in order to the level of the handler's priority;
    unset bits got none; other levels are untouched.  Either [k] is the
    end of the batch and the handler returns nil, or bit [k] is set and
    the handler fails there: with "not found" when [GetData] returns
    nil, or with the push error when [GetData] returned data and the
    level was full.  Nothing is queued for bit [k] or any later bit. *)
Theorem handleWantedKeysMsg_serves_until_failure
    (req : WantedKeysMsg.t) (self : StreamerPeer) (s : outgoingStreamer)
    (want : bv.BitVector) :
  outgoing self !! WantedKeysMsg.Stream req = Some s ->
  bv.NewFromBytes (WantedKeysMsg.Want req) (length (currentBatch s) / HashSize)
    = Ok want ->
  exists k r p,
    handleWantedKeysMsg req self = (r, p) /\
    k <= length (currentBatch s) / HashSize /\
    (forall j, j < k -> wanted want j = true ->
       is_Some (GetData (oOutgoingStreamer s) (hashAt (currentBatch s) j))) /\
    pq.level (pq_ p) (N.to_nat (opriority s))
      = pq.level (pq_ self) (N.to_nat (opriority s))
        ++ deliveriesFor s (currentBatch s) want 0 k /\
    (forall p', p' <> N.to_nat (opriority s) ->
       pq.level (pq_ p) p' = pq.level (pq_ self) p') /\
    loopEnd s (currentBatch s) want 0 (length (currentBatch s) / HashSize) k r p.
Proof.
  intros Hs Hwant.
  unfold handleWantedKeysMsg, bind, getOutgoingStreamer, go, modify, lift.
  rewrite Hs. cbv beta iota. rewrite Hwant.
  match goal with |- context [wantedKeysLoop _ _ _ _ _ _ ?st] => set (st1 := st) end.
  destruct (wantedKeysLoop_spec (WantedKeysMsg.Stream req) s (currentBatch s) want
              (length (currentBatch s) / HashSize) 0 st1)
    as (k & r & p & Hrun & Hk & Hserved & Hl & Ho & Hend).
  - intros j Hj. eapply NewFromBytes_Get; [exact Hwant | lia].
  - rewrite Nat.add_0_l, Nat.mul_comm. apply Nat.Div0.mul_div_le.
  - exists k, r, p. rewrite Hrun. split; [done |]. split; [done |].
    split; [intros j Hj; apply Hserved; lia |]. done.
Qed.

Lemma handleWantedKeysMsg_serves_until_failure_witness :
  let batch := Ex.h1 ++ Ex.h2 in
  let self := Ex.peerOut "sync" Ex.serveAll batch in
  let s := mkOutgoingStreamer Ex.serveAll Mid batch in
  let req := WantedKeysMsg.mk "sync" [] [x02] 2 3 in
  let want := bv.mkBV 2 [x02] in
  outgoing self !! "sync" = Some s /\
  bv.NewFromBytes [x02] (length batch / HashSize) = Ok want /\
  exists k r p,
    handleWantedKeysMsg req self = (r, p) /\
    pq.level (pq_ p) (N.to_nat Mid)
      = pq.level (pq_ self) (N.to_nat Mid) ++ deliveriesFor s batch want 0 k /\
    loopEnd s batch want 0 2 k r p.
Proof.
  split; [reflexivity | split; [reflexivity |]].
  destruct (handleWantedKeysMsg_serves_until_failure
              (WantedKeysMsg.mk "sync" [] [x02] 2 3)
              (Ex.peerOut "sync" Ex.serveAll (Ex.h1 ++ Ex.h2))
              (mkOutgoingStreamer Ex.serveAll Mid (Ex.h1 ++ Ex.h2))
              (bv.mkBV 2 [x02]) eq_refl eq_refl)
    as (k & r & p & Hrun & _ & _ & Hl & _ & Hend).
  exists k, r, p. repeat split; assumption.
Defined.

(** C3, as stated, fails.  The claim is that every set bit whose
    [GetData] returns data gets its [ChunkDeliveryMsg] enqueued.  On a
    new peer (queue levels of capacity 3) with a batch of four hashes,
    all wanted and all served, the fourth push is rejected: three
    deliveries are queued, none for [h4], and the handler fails.  And
    when [GetData] has no data for [h1] but has for [h2], both wanted,
    the handler fails at [h1] and nothing is queued for [h2]. *)
Lemma handleWantedKeysMsg_set_bit_without_delivery :
  (let batch := Ex.h1 ++ Ex.h2 ++ Ex.h3 ++ Ex.h4 in
   let '(r, p) := handleWantedKeysMsg (WantedKeysMsg.mk "sync" [] [x0f] 4 5)
                    (Ex.peerOut "sync" Ex.serveAll batch) in
   wanted (bv.mkBV 4 [x0f]) 3 = true /\
   GetData Ex.serveAll Ex.h4 = Some Ex.data /\
   r = Err ErrQueueFull /\
   pq.level (pq_ p) (N.to_nat Mid) =
     [ MChunkDelivery (ChunkDeliveryMsg.mk Ex.h1 Ex.data 0);
       MChunkDelivery (ChunkDeliveryMsg.mk Ex.h2 Ex.data 0);
       MChunkDelivery (ChunkDeliveryMsg.mk Ex.h3 Ex.data 0) ]) /\
  (let batch := Ex.h1 ++ Ex.h2 in
   let '(r, p) := handleWantedKeysMsg (WantedKeysMsg.mk "sync" [] [x03] 2 3)
                    (Ex.peerOut "sync" Ex.serveButFirst batch) in
   wanted (bv.mkBV 2 [x03]) 1 = true /\
   GetData Ex.serveButFirst Ex.h2 = Some Ex.data /\
   r = Err ErrNotFound /\
   pq.level (pq_ p) (N.to_nat Mid) = []).
Proof. vm_compute. repeat split; reflexivity. Qed.

(** ** The gap chooser *)



(** ** The registry keys *)

(** C5.  The claim is that both maps are keyed by name||key throughout.
    [handleSubscribeMsg] registers under name||key, but [Subscribe]
    registers under the name alone and every handler looks its stream
    up under the name alone: after a [SubscribeMsg] for stream "sync"
    with key [01] the handler is registered and neither
    [handleWantedKeysMsg] nor [handleTakeoverProofMsg] finds it. *)
Theorem keyed_outgoing_stream_not_found :
  let key := [x01] in
  let '(r, p) :=
    handleSubscribeMsg Ex.streamer0 (SubscribeMsg.mk "sync" key 0 0 Mid)
                       (NewStreamerPeer 1) in
  r = Ok tt /\
  is_Some (outgoing p !! ("sync" +:+ string_of_bytes key)) /\
  goroutines p = [GoSendUnsyncedKeys ("sync" +:+ string_of_bytes key) 0 0] /\
  fst (handleWantedKeysMsg (WantedKeysMsg.mk "sync" key [] 0 0) p)
    = Err (ErrStreamNotProvided "sync") /\
  fst (handleTakeoverProofMsg (mkTakeoverProof [] (Some (mkHandover "sync" 0 0 []))) p)
    = Err (ErrStreamNotProvided "sync") /\
  let '(r', st) := Subscribe 1 "live" key 0 0 Mid true Ex.streamer0 in
  r' = Ok tt /\
  (exists peer, peers st !! 1 = Some peer /\
     is_Some (incoming peer !! "live") /\
     incoming peer !! ("live" +:+ string_of_bytes key) = None).
Proof.
  vm_compute. repeat split; try reflexivity; eauto.
Qed.

Lemma append_nonempty_neq (a b : string) : b <> "" -> a +:+ b <> a.
Proof.
  intros Hb. induction a as [| c a IH]; simpl; [done |].
  intros H. injection H as H. by apply IH.
Qed.

Lemma string_of_bytes_nonempty (key : bytes) : key <> [] -> string_of_bytes key <> "".
Proof. destruct key; [done | discriminate]. Qed.

(** On a peer without outgoing streams, a [SubscribeMsg] with a
    non-empty key registers a handler that no later [WantedKeysMsg] for
    the same stream and key finds. *)
Lemma keyed_registration_never_found
    (streamer : Streamer) (req : SubscribeMsg.t) (self p : StreamerPeer)
    (want : bytes) (from to : uint64) :
  outgoing self = ∅ ->
  SubscribeMsg.Key req <> [] ->
  handleSubscribeMsg streamer req self = (Ok tt, p) ->
  fst (handleWantedKeysMsg
         (WantedKeysMsg.mk (SubscribeMsg.Stream req) (SubscribeMsg.Key req) want from to) p)
    = Err (ErrStreamNotProvided (SubscribeMsg.Stream req)).
Proof.
  intros Hempty Hkey Hsub.
  assert (Hp : outgoing p !! SubscribeMsg.Stream req = None).
  { revert Hsub.
    unfold handleSubscribeMsg, bind, lift, get, attempt, setOutgoingStreamer, go,
      modify, ret.
    destruct (GetOutgoingStreamer streamer (SubscribeMsg.Stream req)) as [f | |];
      [| done | done].
    destruct (f self (SubscribeMsg.Key req)) as [o | |]; [| done | done].
    rewrite Hempty, lookup_empty. intros [= <-]. simpl.
    rewrite lookup_insert_ne, lookup_empty; [done |].
    by apply append_nonempty_neq, string_of_bytes_nonempty. }
  unfold handleWantedKeysMsg, bind, getOutgoingStreamer. simpl. by rewrite Hp.
Qed.

(** ** Offering a batch *)




(** ** Duplicate registration *)

(** C7.  A duplicate is handled differently on the two sides:
    [Subscribe] returns the already-registered error when the peer has
    an incoming entry for the stream, and changes nothing, so that no
    [SubscribeMsg] is queued; [handleSubscribeMsg] returns nil when the
    peer has an outgoing entry for the stream, and changes nothing
    either. *)
Theorem duplicate_registration_asymmetry
    (self : Streamer) (peerId : nat) (s : string) (t : bytes) (from to : uint64)
    (priority : uint8) (live : bool)
    (f : StreamerPeer -> bytes -> result IncomingStreamer)
    (peer : StreamerPeer) (i : IncomingStreamer)
    (req : SubscribeMsg.t) (sp : StreamerPeer)
    (g : StreamerPeer -> bytes -> result OutgoingStreamer) (o : OutgoingStreamer) :
  Streamer_incoming self !! s = Some f ->
  peers self !! peerId = Some peer ->
  f peer t = Ok i ->
  is_Some (incoming peer !! s) ->
  Streamer_outgoing self !! SubscribeMsg.Stream req = Some g ->
  g sp (SubscribeMsg.Key req) = Ok o ->
  is_Some (outgoing sp !! (SubscribeMsg.Stream req
                           +:+ string_of_bytes (SubscribeMsg.Key req))) ->
  Subscribe peerId s t from to priority live self
    = (Err (ErrAlreadyRegistered s), self)
  /\ handleSubscribeMsg self req sp = (Ok tt, sp).
Proof.
  intros Hf Hpeer Hi [e He] Hg Ho [e' He']. split.
  - unfold Subscribe, GetIncomingStreamer, getPeer, setIncomingStreamer.
    rewrite Hf, Hpeer, Hi, He. reflexivity.
  - unfold handleSubscribeMsg, GetOutgoingStreamer, bind, lift, get, attempt,
      setOutgoingStreamer, ret.
    rewrite Hg, Ho, He'. reflexivity.
Qed.

Lemma duplicate_registration_asymmetry_witness :
  let req := SubscribeMsg.mk "sync" [] 0 0 Mid in
  let sp := Ex.peerOut "sync" Ex.serveAll [] in
  Subscribe 1 "live" [] 0 0 Mid true Ex.streamer1
    = (Err (ErrAlreadyRegistered "live"), Ex.streamer1)
  /\ handleSubscribeMsg Ex.streamer1 req sp = (Ok tt, sp).
Proof.
  apply (duplicate_registration_asymmetry Ex.streamer1 1 "live" [] 0%N 0%N Mid true
           (fun _ _ => Ok Ex.needFirst) Ex.peer1 Ex.needFirst
           (SubscribeMsg.mk "sync" [] 0 0 Mid) (Ex.peerOut "sync" Ex.serveAll [])
           (fun _ _ => Ok Ex.serveAll) Ex.serveAll);
    try (vm_compute; reflexivity); vm_compute; eauto.
Defined.

(** ** The receive loop *)






(** ** Retrieve requests *)



(** C10.  [Retrieve] returns nil whatever happens: for every chunk and
    every streamer; when the overlay has no connection for the key,
    nothing is sent; and when the queue of the nearest connection has no
    room at [Top], no queue changes and the result is nil all the
    same. *)
Theorem Retrieve_returns_nil :
  (forall chunk self, fst (Retrieve chunk self) = Ok tt) /\
  (forall chunk self,
     order (overlay self) (cKey chunk) = [] ->
     Retrieve chunk self = (Ok tt, self)) /\
  (forall chunk self i po nn rest sp,
     order (overlay self) (cKey chunk) = (i, po, nn) :: rest ->
     conns (overlay self) !! i = Some sp ->
     pq.has_room (pq_ sp) (N.to_nat Top) = false ->
     exists self',
       Retrieve chunk self = (Ok tt, self') /\
       pq_ <$> conns (overlay self') = pq_ <$> conns (overlay self)).
Proof.
  split; [| split].
  - reflexivity.
  - intros chunk self H. unfold Retrieve, EachConn. rewrite H. simpl.
    destruct self as [? ? ? [? ?] ? ?]. reflexivity.
  - intros chunk self i po nn rest sp Ho Hsp Hroom.
    unfold Retrieve, EachConn. rewrite Ho. simpl. rewrite Hsp.
    unfold SendPriority, pq.Push. unfold pq.has_room in Hroom.
    eexists. split; [reflexivity |]. simpl.
    destruct (pq.Queues (pq_ sp) !! N.to_nat Top) as [lvl |].
    + rewrite Hroom. simpl. rewrite list_fmap_insert. simpl.
      apply list_insert_id. rewrite list_lookup_fmap, Hsp. reflexivity.
    + simpl. rewrite list_fmap_insert. simpl.
      apply list_insert_id. rewrite list_lookup_fmap, Hsp. reflexivity.
Qed.

Lemma Retrieve_returns_nil_witness :
  let chunk := NewChunk Ex.h1 (Some 0) in
  Retrieve chunk Ex.streamer0 = (Ok tt, Ex.streamer0) /\
  exists self',
    Retrieve chunk Ex.streamerTopFull = (Ok tt, self') /\
    pq_ <$> conns (overlay self') = [pq_ Ex.peerTopFull].
Proof.
  destruct Retrieve_returns_nil as (_ & Hnone & Hfull). split.
  - apply Hnone. reflexivity.
  - apply (Hfull (NewChunk Ex.h1 (Some 0)) Ex.streamerTopFull 0 0 true [] Ex.peerTopFull);
      reflexivity.
Defined.

(** * Further properties of the streamer *)

(** ** Registries and the peer table *)

(** X1.  A constructor registered for a stream name is the one the
    accessor returns; registering leaves every other name, and the
    registry of the other direction, as they were; and a new streamer
    has no constructor for any name. *)
Theorem registered_constructor_found
    (self : Streamer) (stream other : string)
    (fi : StreamerPeer -> bytes -> result IncomingStreamer)
    (fo : StreamerPeer -> bytes -> result OutgoingStreamer) :
  other <> stream ->
  GetIncomingStreamer (RegisterIncomingStreamer stream fi self) stream = Ok fi /\
  GetOutgoingStreamer (RegisterOutgoingStreamer stream fo self) stream = Ok fo /\
  GetIncomingStreamer (RegisterIncomingStreamer stream fi self) other
    = GetIncomingStreamer self other /\
  GetOutgoingStreamer (RegisterOutgoingStreamer stream fo self) other
    = GetOutgoingStreamer self other /\
  GetOutgoingStreamer (RegisterIncomingStreamer stream fi self) stream
    = GetOutgoingStreamer self stream /\
  GetIncomingStreamer (RegisterOutgoingStreamer stream fo self) stream
    = GetIncomingStreamer self stream /\
  GetIncomingStreamer (NewStreamer (overlay self) (dbAccess self)) stream
    = Err (ErrStreamNotRegistered stream) /\
  GetOutgoingStreamer (NewStreamer (overlay self) (dbAccess self)) stream
    = Err (ErrStreamNotRegistered stream).
Proof.
  intros Hne.
  unfold GetIncomingStreamer, GetOutgoingStreamer, RegisterIncomingStreamer,
    RegisterOutgoingStreamer, NewStreamer. simpl.
  rewrite !lookup_insert_eq, !lookup_empty.
  rewrite !lookup_insert_ne by done. done.
Qed.

Lemma registered_constructor_found_witness :
  let fi := fun (_ : StreamerPeer) (_ : bytes) => Ok Ex.needAll in
  let fo := fun (_ : StreamerPeer) (_ : bytes) => Ok Ex.serveAll in
  "live" <> "sync" /\
  GetIncomingStreamer (RegisterIncomingStreamer "sync" fi Ex.streamer0) "sync" = Ok fi /\
  GetIncomingStreamer (RegisterIncomingStreamer "sync" fi Ex.streamer0) "live"
    = GetIncomingStreamer Ex.streamer0 "live".
Proof.
  split; [discriminate |].
  destruct (registered_constructor_found Ex.streamer0 "sync" "live"
              (fun _ _ => Ok Ex.needAll) (fun _ _ => Ok Ex.serveAll))
    as (H1 & _ & H3 & _); [discriminate |].
  split; assumption.
Defined.

(** X2.  A peer put into the peer table is found under its id, a
    deleted peer is not, and neither operation touches another id. *)
Theorem peer_table_round_trip (self : Streamer) (peer : StreamerPeer) (other : nat) :
  other <> ID peer ->
  getPeer (setPeer peer self) (ID peer) = Some peer /\
  getPeer (deletePeer peer (setPeer peer self)) (ID peer) = None /\
  getPeer (setPeer peer self) other = getPeer self other /\
  getPeer (deletePeer peer self) other = getPeer self other.
Proof.
  intros Hne. unfold getPeer, setPeer, deletePeer. simpl.
  rewrite lookup_insert_eq, lookup_delete_eq.
  rewrite lookup_insert_ne, lookup_delete_ne by done. done.
Qed.

Lemma peer_table_round_trip_witness :
  let peer := NewStreamerPeer 7 in
  1 <> ID peer /\
  getPeer (setPeer peer Ex.streamer0) 7 = Some peer /\
  getPeer (deletePeer peer (setPeer peer Ex.streamer0)) 7 = None /\
  getPeer (setPeer peer Ex.streamer0) 1 = getPeer Ex.streamer0 1.
Proof.
  split; [discriminate |].
  destruct (peer_table_round_trip Ex.streamer0 (NewStreamerPeer 7) 1)
    as (H1 & H2 & H3 & _); [discriminate |].
  repeat split; assumption.
Defined.

(** X3.  On a peer without an outgoing entry for [s],
    [setOutgoingStreamer] makes one with the given handler and
    priority and an empty current batch, which [getOutgoingStreamer]
    then returns; other keys are untouched; and a second registration
    under [s] fails and leaves the first entry in place. *)
Theorem outgoing_registration_first_wins
    (self : StreamerPeer) (s other : string) (o o' : OutgoingStreamer)
    (priority priority' : uint8) :
  outgoing self !! s = None ->
  other <> s ->
  exists p,
    setOutgoingStreamer s o priority self = (Ok s, p) /\
    getOutgoingStreamer s p = (Ok (mkOutgoingStreamer o priority []), p) /\
    outgoing p !! other = outgoing self !! other /\
    setOutgoingStreamer s o' priority' p = (Err (ErrAlreadyRegistered s), p).
Proof.
  intros Hnone Hne. unfold setOutgoingStreamer, getOutgoingStreamer.
  rewrite Hnone. eexists. split; [reflexivity |]. simpl.
  rewrite lookup_insert_eq, lookup_insert_ne by done. done.
Qed.

Lemma outgoing_registration_first_wins_witness :
  exists p,
    setOutgoingStreamer "sync" Ex.serveAll Mid (NewStreamerPeer 1) = (Ok "sync", p) /\
    getOutgoingStreamer "sync" p = (Ok (mkOutgoingStreamer Ex.serveAll Mid []), p) /\
    setOutgoingStreamer "sync" Ex.serveButFirst Top p
      = (Err (ErrAlreadyRegistered "sync"), p).
Proof.
  destruct (outgoing_registration_first_wins (NewStreamerPeer 1) "sync" "live"
              Ex.serveAll Ex.serveButFirst Mid Top eq_refl)
    as (p & H1 & H2 & _ & H4); [discriminate |].
  exists p. repeat split; assumption.
Defined.

(** X4.  On a peer without an incoming entry for [s],
    [setIncomingStreamer] makes one with the given handler, priority
    and live flag, session mark 0, no quit channel and one token on
    [next], which [getIncomingStreamer] then returns; other keys are
    untouched; and a second registration under [s] fails and leaves the
    first entry in place. *)
Theorem incoming_registration_first_wins
    (self : StreamerPeer) (s other : string) (i i' : IncomingStreamer)
    (priority priority' : uint8) (lv lv' : bool) :
  incoming self !! s = None ->
  other <> s ->
  exists p,
    setIncomingStreamer s i priority lv self = (Ok tt, p) /\
    getIncomingStreamer s p
      = (Ok (mkIncomingStreamer i priority 0%N lv None 1), p) /\
    incoming p !! other = incoming self !! other /\
    setIncomingStreamer s i' priority' lv' p = (Err (ErrAlreadyRegistered s), p).
Proof.
  intros Hnone Hne. unfold setIncomingStreamer, getIncomingStreamer.
  rewrite Hnone. eexists. split; [reflexivity |]. simpl.
  rewrite lookup_insert_eq, lookup_insert_ne by done. done.
Qed.

Lemma incoming_registration_first_wins_witness :
  exists p,
    setIncomingStreamer "live" Ex.needAll Mid true (NewStreamerPeer 1) = (Ok tt, p) /\
    getIncomingStreamer "live" p
      = (Ok (mkIncomingStreamer Ex.needAll Mid 0%N true None 1), p) /\
    setIncomingStreamer "live" Ex.needFirst Top false p
      = (Err (ErrAlreadyRegistered "live"), p).
Proof.
  destruct (incoming_registration_first_wins (NewStreamerPeer 1) "live" "sync"
              Ex.needAll Ex.needFirst Mid Top true false eq_refl)
    as (p & H1 & H2 & _ & H4); [discriminate |].
  exists p. repeat split; assumption.
Defined.

(** ** Subscribing *)

(** X5.  [Subscribe] changes nothing when it does not return nil: with
    an error or a panic the streamer is the one it was given.  The
    error is "not registered" when the stream has no incoming
    constructor and "peer not found" when the constructor exists and
    the peer is not in the table. *)
Theorem Subscribe_failure_changes_nothing
    (self : Streamer) (peerId : nat) (s : string) (t : bytes) (from to : uint64)
    (priority : uint8) (lv : bool) :
  (fst (Subscribe peerId s t from to priority lv self) <> Ok tt ->
   snd (Subscribe peerId s t from to priority lv self) = self) /\
  (Streamer_incoming self !! s = None ->
   Subscribe peerId s t from to priority lv self
     = (Err (ErrStreamNotRegistered s), self)) /\
  (is_Some (Streamer_incoming self !! s) -> peers self !! peerId = None ->
   Subscribe peerId s t from to priority lv self
     = (Err (ErrPeerNotFound peerId), self)).
Proof.
  unfold Subscribe, GetIncomingStreamer, getPeer. split; [| split].
  - destruct (Streamer_incoming self !! s) as [f |]; [| done].
    destruct (peers self !! peerId) as [peer |]; [| done].
    destruct (f peer t) as [i | e |]; [| done | done].
    destruct (setIncomingStreamer s i priority lv peer) as [[[] | e |] peer1];
      [| done | done].
    destruct (SendPriority _ priority peer1). simpl. done.
  - intros H. by rewrite H.
  - intros [f Hf] Hp. by rewrite Hf, Hp.
Qed.

Lemma Subscribe_failure_changes_nothing_witness :
  Subscribe 1 "sync" [] 0 0 Mid true Ex.streamer0
    = (Err (ErrStreamNotRegistered "sync"), Ex.streamer0) /\
  Subscribe 9 "live" [] 0 0 Mid true Ex.streamer0
    = (Err (ErrPeerNotFound 9), Ex.streamer0).
Proof.
  split.
  - apply (proj1 (proj2 (Subscribe_failure_changes_nothing Ex.streamer0 1 "sync" []
                           0%N 0%N Mid true))).
    reflexivity.
  - apply (proj2 (proj2 (Subscribe_failure_changes_nothing Ex.streamer0 9 "live" []
                           0%N 0%N Mid true))).
    + vm_compute. eauto.
    + reflexivity.
Defined.

(** X6.  When the constructor is registered and succeeds and the peer
    is known and has no entry for the stream name, [Subscribe] returns
    nil and the peer has the new entry, under the name alone.  The
    [SubscribeMsg] with the given stream, key, range and priority is
    queued at that priority when the level has room; when it has none
    the message is dropped and [Subscribe] returns nil all the same. *)
Theorem Subscribe_registers_and_announces
    (self : Streamer) (peerId : nat) (s : string) (t : bytes) (from to : uint64)
    (priority : uint8) (lv : bool)
    (f : StreamerPeer -> bytes -> result IncomingStreamer)
    (peer : StreamerPeer) (i : IncomingStreamer) :
  Streamer_incoming self !! s = Some f ->
  peers self !! peerId = Some peer ->
  f peer t = Ok i ->
  incoming peer !! s = None ->
  exists peer',
    Subscribe peerId s t from to priority lv self
      = (Ok tt, set_peers (<[peerId := peer']> (peers self)) self) /\
    incoming peer' = <[s := mkIncomingStreamer i priority 0%N lv None 1]> (incoming peer) /\
    if pq.has_room (pq_ peer) (N.to_nat priority)
    then pq.level (pq_ peer') (N.to_nat priority)
         = pq.level (pq_ peer) (N.to_nat priority)
           ++ [MSubscribe (SubscribeMsg.mk s t from to priority)]
    else pq_ peer' = pq_ peer.
Proof.
  intros Hf Hpeer Hi Hnone.
  unfold Subscribe, GetIncomingStreamer, getPeer, setIncomingStreamer.
  rewrite Hf, Hpeer, Hi, Hnone.
  match goal with |- context [SendPriority ?m ?pr ?st] =>
    set (msg := m); set (st1 := st) end.
  assert (Hpq : pq_ st1 = pq_ peer) by reflexivity.
  destruct (pq.has_room (pq_ peer) (N.to_nat priority)) eqn:Hroom;
    rewrite <- Hpq in Hroom.
  - destruct (SendPriority_room msg priority st1 Hroom) as (p & Hp & Hl & _ & _).
    rewrite Hp. exists p. split; [done |]. split; [| by rewrite Hl, Hpq].
    unfold SendPriority in Hp. destruct (pq.Push _ _ _) as [[e |] q]; by simplify_eq.
  - destruct (SendPriority_full msg priority st1 Hroom) as (p & Hp & Hq & _).
    rewrite Hp. exists p. split; [done |]. split; [| by rewrite Hq].
    unfold SendPriority in Hp. destruct (pq.Push _ _ _) as [[e |] q]; by simplify_eq.
Qed.

Lemma Subscribe_registers_and_announces_witness :
  exists peer',
    Subscribe 1 "live" [x01] 5 9 Mid true Ex.streamer0
      = (Ok tt, set_peers (<[1 := peer']> (peers Ex.streamer0)) Ex.streamer0) /\
    incoming peer'
      = <[ "live" := mkIncomingStreamer Ex.needFirst Mid 0%N true None 1 ]>
          (incoming (NewStreamerPeer 1)) /\
    pq.level (pq_ peer') 2 = [MSubscribe (SubscribeMsg.mk "live" [x01] 5 9 Mid)].
Proof.
  destruct (Subscribe_registers_and_announces Ex.streamer0 1 "live" [x01] 5%N 9%N
              Mid true (fun _ _ => Ok Ex.needFirst) (NewStreamerPeer 1) Ex.needFirst
              eq_refl eq_refl eq_refl eq_refl)
    as (peer' & H1 & H2 & H3).
  exists peer'. repeat split; assumption.
Defined.

Lemma handleSubscribeMsg_ok
    (streamer : Streamer) (req : SubscribeMsg.t) (self : StreamerPeer)
    (g : StreamerPeer -> bytes -> result OutgoingStreamer) (o : OutgoingStreamer) :
  let key := SubscribeMsg.Stream req +:+ string_of_bytes (SubscribeMsg.Key req) in
  Streamer_outgoing streamer !! SubscribeMsg.Stream req = Some g ->
  g self (SubscribeMsg.Key req) = Ok o ->
  outgoing self !! key = None ->
  exists p,
    handleSubscribeMsg streamer req self = (Ok tt, p) /\
    outgoing p
      = <[key := mkOutgoingStreamer o (SubscribeMsg.Priority req) []]> (outgoing self) /\
    goroutines p
      = goroutines self
        ++ [GoSendUnsyncedKeys key (SubscribeMsg.From req) (SubscribeMsg.To req)] /\
    pq_ p = pq_ self /\ incoming p = incoming self /\ trace p = trace self.
Proof.
  intros key Hg Ho Hnone.
  unfold handleSubscribeMsg, GetOutgoingStreamer, bind, lift, get, attempt,
    setOutgoingStreamer, go, modify, ret.
  rewrite Hg, Ho. fold key. rewrite Hnone. eexists. split; [reflexivity |]. done.
Qed.

(** X7.  When the outgoing constructor is registered and succeeds and
    the peer has no entry under name||key, [handleSubscribeMsg] returns
    nil, makes the entry under name||key with the priority of the
    message and an empty current batch, and starts one goroutine that
    runs [SendUnsyncedKeys] on that entry with the range of the
    message; it queues nothing itself.  When the constructor is not
    registered it returns "not registered" and changes nothing. *)
Theorem handleSubscribeMsg_registers_and_starts
    (streamer : Streamer) (req : SubscribeMsg.t) (self : StreamerPeer) :
  let key := SubscribeMsg.Stream req +:+ string_of_bytes (SubscribeMsg.Key req) in
  (forall g o,
     Streamer_outgoing streamer !! SubscribeMsg.Stream req = Some g ->
     g self (SubscribeMsg.Key req) = Ok o ->
     outgoing self !! key = None ->
     exists p,
       handleSubscribeMsg streamer req self = (Ok tt, p) /\
       outgoing p
         = <[key := mkOutgoingStreamer o (SubscribeMsg.Priority req) []]> (outgoing self) /\
       goroutines p
         = goroutines self
           ++ [GoSendUnsyncedKeys key (SubscribeMsg.From req) (SubscribeMsg.To req)] /\
       pq_ p = pq_ self /\ incoming p = incoming self /\ trace p = trace self) /\
  (Streamer_outgoing streamer !! SubscribeMsg.Stream req = None ->
   handleSubscribeMsg streamer req self
     = (Err (ErrStreamNotRegistered (SubscribeMsg.Stream req)), self)).
Proof.
  intros key. split.
  - intros g o Hg Ho Hnone. by apply (handleSubscribeMsg_ok streamer req self g o).
  - intros Hnone. unfold handleSubscribeMsg, GetOutgoingStreamer, bind, lift.
    by rewrite Hnone.
Qed.

Lemma handleSubscribeMsg_registers_and_starts_witness :
  let req := SubscribeMsg.mk "sync" [x01] 3 8 High in
  let key := "sync" +:+ string_of_bytes [x01] in
  (exists p,
     handleSubscribeMsg Ex.streamer0 req (NewStreamerPeer 1) = (Ok tt, p) /\
     outgoing p = <[key := mkOutgoingStreamer Ex.serveAll High []]> ∅ /\
     goroutines p = [GoSendUnsyncedKeys key 3 8]) /\
  handleSubscribeMsg Ex.streamer0 (SubscribeMsg.mk "live" [] 0 0 Mid) (NewStreamerPeer 1)
    = (Err (ErrStreamNotRegistered "live"), NewStreamerPeer 1).
Proof.
  split.
  - destruct (proj1 (handleSubscribeMsg_registers_and_starts Ex.streamer0
                       (SubscribeMsg.mk "sync" [x01] 3 8 High) (NewStreamerPeer 1))
                (fun _ _ => Ok Ex.serveAll) Ex.serveAll eq_refl eq_refl eq_refl)
      as (p & H1 & H2 & H3 & _).
    exists p. repeat split; assumption.
  - apply (proj2 (handleSubscribeMsg_registers_and_starts Ex.streamer0
                    (SubscribeMsg.mk "live" [] 0 0 Mid) (NewStreamerPeer 1))).
    reflexivity.
Defined.

Lemma delete_last {A} (l : list A) (x : A) : delete (length l) (l ++ [x]) = l.
Proof. induction l as [| a l IH]; simpl; [done |]. by rewrite IH. Qed.

(** X8.  After a [SubscribeMsg] has been handled, scheduling the
    goroutine it started offers the first batch: when [SetNextBatch]
    succeeds on the range of the message and the level of the message's
    priority has room, the hashes become the current batch of the new
    entry, an [UnsyncedKeysMsg] with the adjusted range, the hashes and
    the proof is queued at that priority, and the goroutine is gone. *)
Theorem first_batch_offered_after_subscribe
    (streamer : Streamer) (req : SubscribeMsg.t) (self p : StreamerPeer)
    (g : StreamerPeer -> bytes -> result OutgoingStreamer) (o : OutgoingStreamer)
    (d : DbAccess) (hashes : bytes) (from to : uint64) (proof : option HandoverProof) :
  let key := SubscribeMsg.Stream req +:+ string_of_bytes (SubscribeMsg.Key req) in
  let prio := N.to_nat (SubscribeMsg.Priority req) in
  Streamer_outgoing streamer !! SubscribeMsg.Stream req = Some g ->
  g self (SubscribeMsg.Key req) = Ok o ->
  outgoing self !! key = None ->
  SetNextBatch o (SubscribeMsg.From req) (SubscribeMsg.To req)
    = Ok (hashes, from, to, proof) ->
  pq.has_room (pq_ self) prio = true ->
  handleSubscribeMsg streamer req self = (Ok tt, p) ->
  exists p' m,
    stepGoroutine d (length (goroutines self)) ArmMain p = Stepped p' /\
    outgoing p' !! key
      = Some (mkOutgoingStreamer o (SubscribeMsg.Priority req) hashes) /\
    pq.level (pq_ p') prio = pq.level (pq_ self) prio ++ [MUnsyncedKeys m] /\
    UnsyncedKeysMsg.From m = from /\ UnsyncedKeysMsg.To m = to /\
    UnsyncedKeysMsg.Hashes m = hashes /\ UnsyncedKeysMsg.HandoverProof_ m = proof /\
    goroutines p' = goroutines self.
Proof.
  intros key prio Hg Ho Hnone Hnext Hroom Hrun.
  destruct (handleSubscribeMsg_ok streamer req self g o Hg Ho Hnone)
    as (p0 & Hp0 & Hout & Hgo & Hpq & _).
  fold key in Hout, Hgo. rewrite Hrun in Hp0. injection Hp0 as <-.
  unfold stepGoroutine. rewrite Hgo.
  rewrite lookup_app_r by lia. rewrite Nat.sub_diag. simpl.
  unfold SendUnsyncedKeys.
  rewrite (bind_Ok _ _ p p p) by reflexivity.
  rewrite (bind_Ok _ _ p p (mkOutgoingStreamer o (SubscribeMsg.Priority req) []))
    by (rewrite Hout, lookup_insert_eq; reflexivity).
  erewrite bind_Ok by reflexivity.
  erewrite bind_Ok by (unfold lift; simpl; rewrite Hnext; reflexivity).
  cbv beta iota.
  erewrite bind_Ok by reflexivity.
  match goal with |- context [SendPriority ?m ?pr ?st] =>
    set (msg := m); set (st1 := st) end.
  assert (Hroom1 : pq.has_room (pq_ st1) prio = true)
    by (subst st1; simpl; by rewrite Hpq).
  destruct (SendPriority_room msg _ st1 Hroom1) as (p1 & Hp1 & Hl & _ & Ho1).
  simpl opriority. rewrite Hp1.
  eexists _, (UnsyncedKeysMsg.mk "" [] from to hashes proof).
  split; [reflexivity |]. simpl. rewrite Ho1. subst st1. simpl.
  rewrite lookup_insert_eq. split; [done |].
  fold prio in Hl. rewrite Hl. simpl. rewrite Hpq. split; [done |].
  repeat split; try done.
  assert (Hg1 : goroutines p1 = goroutines p).
  { unfold SendPriority in Hp1. destruct (pq.Push _ _ _) as [[e |] q]; by simplify_eq. }
  rewrite Hg1, Hgo. apply delete_last.
Qed.

Lemma first_batch_offered_after_subscribe_witness :
  let req := SubscribeMsg.mk "sync" [x01] 0 3 Mid in
  let p := snd (handleSubscribeMsg Ex.streamer0 req (NewStreamerPeer 1)) in
  exists p' m,
    stepGoroutine Ex.emptyDb 0 ArmMain p = Stepped p' /\
    outgoing p' !! ("sync" +:+ string_of_bytes [x01])
      = Some (mkOutgoingStreamer Ex.serveAll Mid (Ex.h1 ++ Ex.h2 ++ Ex.h3 ++ Ex.h4)) /\
    pq.level (pq_ p') 2 = [MUnsyncedKeys m] /\
    UnsyncedKeysMsg.Hashes m = Ex.h1 ++ Ex.h2 ++ Ex.h3 ++ Ex.h4.
Proof.
  destruct (first_batch_offered_after_subscribe Ex.streamer0
              (SubscribeMsg.mk "sync" [x01] 0 3 Mid) (NewStreamerPeer 1)
              (snd (handleSubscribeMsg Ex.streamer0
                      (SubscribeMsg.mk "sync" [x01] 0 3 Mid) (NewStreamerPeer 1)))
              (fun _ _ => Ok Ex.serveAll) Ex.serveAll Ex.emptyDb
              (Ex.h1 ++ Ex.h2 ++ Ex.h3 ++ Ex.h4) 0%N 3%N (Some Ex.proof0)
              eq_refl eq_refl eq_refl eq_refl eq_refl eq_refl)
    as (p' & m & H1 & H2 & H3 & _ & _ & H6 & _).
  exists p', m. repeat split; assumption.
Defined.

(** ** The next range *)

(** X9.  Outside the historical streams that have not reached their
    session mark, [nextBatch] does not fail: on a live stream it
    returns the given position with an end of 0, whatever the session
    mark; on a historical stream at or past its session mark it returns
    (0, 0), the pair that makes the handler send no reply. *)
Theorem nextBatch_live_and_complete (self : incomingStreamer) (from : uint64) :
  (live self = true -> nextBatch self from = Some (from, 0%N)) /\
  (live self = false -> (sessionAt self <= from)%N ->
   nextBatch self from = Some (0%N, 0%N)).
Proof.
  unfold nextBatch, nextBatchFrom. split.
  - intros ->. reflexivity.
  - intros -> Hle. by rewrite (proj2 (N.leb_le _ _) Hle).
Qed.

Lemma nextBatch_live_and_complete_witness :
  nextBatch (set_sessionAt 10 (mkIncomingStreamer Ex.needAll Mid 0 true None 1)) 12
    = Some (12%N, 0%N) /\
  nextBatch Ex.historical 1000 = Some (0%N, 0%N).
Proof.
  split.
  - apply (proj1 (nextBatch_live_and_complete _ 12%N)). reflexivity.
  - apply (proj2 (nextBatch_live_and_complete Ex.historical 1000%N));
      [reflexivity | discriminate].
Defined.

(** ** Offering and proofs *)

(** X10.  When [SetNextBatch] fails, [SendUnsyncedKeys] returns its
    error, keeps the current batch of the handler and queues nothing;
    the goroutine that ran it ends without a trace of the error. *)
Theorem SendUnsyncedKeys_failure_sends_nothing
    (s : string) (f t : uint64) (self : StreamerPeer) (os : outgoingStreamer)
    (e : error) (d : DbAccess) (i : nat) :
  outgoing self !! s = Some os ->
  SetNextBatch (oOutgoingStreamer os) f t = Err e ->
  (exists p,
     SendUnsyncedKeys s f t self = (Err e, p) /\
     outgoing p = outgoing self /\ pq_ p = pq_ self /\
     goroutines p = goroutines self) /\
  (goroutines self !! i = Some (GoSendUnsyncedKeys s f t) ->
   exists p,
     stepGoroutine d i ArmMain self = Stepped p /\
     outgoing p = outgoing self /\ pq_ p = pq_ self /\
     goroutines p = delete i (goroutines self)).
Proof.
  intros Hos Hnext.
  assert (Hrun : SendUnsyncedKeys s f t self
                 = (Err e, logged (EvSetNextBatch s f t) self)).
  { unfold SendUnsyncedKeys.
    rewrite (bind_Ok _ _ self self self) by reflexivity.
    rewrite (bind_Ok _ _ self self os) by (by rewrite Hos).
    erewrite bind_Ok by reflexivity.
    unfold bind, lift. by rewrite Hnext. }
  split.
  - eexists. split; [exact Hrun |]. done.
  - intros Hg. unfold stepGoroutine. rewrite Hg, Hrun.
    eexists. split; [reflexivity |]. done.
Qed.

Lemma SendUnsyncedKeys_failure_sends_nothing_witness :
  let failing := mkOutgoing (fun _ _ => Err (ErrSetNextBatch 1)) (fun _ => None) None in
  let self := Ex.peerOut "sync" failing Ex.h1 in
  exists p,
    SendUnsyncedKeys "sync" 0 3 self = (Err (ErrSetNextBatch 1), p) /\
    outgoing p = outgoing self /\ pq_ p = pq_ self.
Proof.
  destruct (proj1 (SendUnsyncedKeys_failure_sends_nothing "sync" 0%N 3%N
                     (Ex.peerOut "sync"
                        (mkOutgoing (fun _ _ => Err (ErrSetNextBatch 1))
                                    (fun _ => None) None) Ex.h1)
                     (mkOutgoingStreamer
                        (mkOutgoing (fun _ _ => Err (ErrSetNextBatch 1))
                                    (fun _ => None) None) Mid Ex.h1)
                     (ErrSetNextBatch 1) Ex.emptyDb 0 eq_refl eq_refl))
    as (p & H1 & H2 & H3 & _).
  exists p. repeat split; assumption.
Defined.

(** X11.  [handleTakeoverProofMsg] never changes the peer: the proof
    is checked against the registry and dropped.  For a proof that
    names a stream the handler returns nil exactly when an outgoing
    entry is registered under that name. *)
Theorem handleTakeoverProofMsg_changes_nothing
    (req : TakeoverProofMsg.t) (self : StreamerPeer) :
  snd (handleTakeoverProofMsg req self) = self /\
  (forall stream,
     TakeoverProofMsg.Stream req = Some stream ->
     (fst (handleTakeoverProofMsg req self) = Ok tt
      <-> is_Some (outgoing self !! stream)) /\
     (outgoing self !! stream = None ->
      fst (handleTakeoverProofMsg req self) = Err (ErrStreamNotProvided stream))).
Proof.
  unfold handleTakeoverProofMsg, bind, orPanic, getOutgoingStreamer, ret, panic.
  split.
  - destruct (TakeoverProofMsg.Stream req) as [stream |]; simpl; [| done].
    by destruct (outgoing self !! stream).
  - intros stream ->. simpl.
    destruct (outgoing self !! stream) as [os |] eqn:Hos; simpl.
    + split; [| done]. split; [eauto | done].
    + split; [| done]. split; [done | by intros [? ?]].
Qed.

Lemma handleTakeoverProofMsg_changes_nothing_witness :
  let req := mkTakeoverProof [] (Some (mkHandover "sync" 0 3 [])) in
  let self := Ex.peerOut "sync" Ex.serveAll Ex.h1 in
  handleTakeoverProofMsg req self = (Ok tt, self) /\
  fst (handleTakeoverProofMsg req (NewStreamerPeer 1))
    = Err (ErrStreamNotProvided "sync").
Proof.
  split.
  - destruct (handleTakeoverProofMsg_changes_nothing
                (mkTakeoverProof [] (Some (mkHandover "sync" 0 3 [])))
                (Ex.peerOut "sync" Ex.serveAll Ex.h1)) as [Hsame Hres].
    destruct (Hres "sync" eq_refl) as [Hiff _].
    destruct (handleTakeoverProofMsg _ _) as [r p]. simpl in *.
    rewrite Hsame. f_equal. apply Hiff. vm_compute. eauto.
  - destruct (handleTakeoverProofMsg_changes_nothing
                (mkTakeoverProof [] (Some (mkHandover "sync" 0 3 [])))
                (NewStreamerPeer 1)) as [_ Hres].
    apply (proj2 (Hres "sync" eq_refl)). reflexivity.
Defined.

(** ** Deliveries *)





(** X14.  A second delivery of a key makes the receive loop panic:
    the first delivery for a waiting placeholder stores the data and
    closes the pending signal; the next one for the same key still
    overwrites the stored data and then closes the closed channel. *)
Theorem second_delivery_panics
    (d : DbAccess) (key data1 data2 : bytes) (id1 id2 : uint64) (c : chan) :
  chunks d !! key = Some (mkChunk key [] (Some c)) ->
  db.isClosed c d = false ->
  let '(r1, d1) := processReceivedChunk (ChunkDeliveryMsg.mk key data1 id1) d in
  let '(r2, d2) := processReceivedChunk (ChunkDeliveryMsg.mk key data2 id2) d1 in
  r1 = Ok tt /\
  chunks d1 !! key = Some (mkChunk key data1 (Some c)) /\
  db.isClosed c d1 = true /\
  r2 = Panic /\
  chunks d2 !! key = Some (mkChunk key data2 (Some c)).
Proof.
  intros Hc Hopen.
  assert (H1 : processReceivedChunk (ChunkDeliveryMsg.mk key data1 id1) d
               = (Ok tt,
                  mkDb (<[key := mkChunk key data1 (Some c)]> (chunks d)) (chansMade d)
                       (c :: closed d)
                       ((dbLog d ++ [DbPut (mkChunk key data1 (Some c))]) ++ [DbClose c]))).
  { unfold processReceivedChunk, db.get.
    cbn [ChunkDeliveryMsg.Key ChunkDeliveryMsg.SData]. rewrite Hc.
    cbn [cKey ReqC]. unfold db.close, db.put, db.isClosed in *.
    cbn [closed cKey]. by rewrite Hopen. }
  rewrite H1. unfold processReceivedChunk, db.get.
  cbn [ChunkDeliveryMsg.Key ChunkDeliveryMsg.SData chunks].
  rewrite lookup_insert_eq. cbn [cKey ReqC].
  unfold db.close, db.put, db.isClosed. cbn [closed cKey chunks].
  rewrite bool_decide_eq_true_2 by (apply list_elem_of_here).
  cbn [chunks]. rewrite ?lookup_insert_eq. done.
Qed.

Lemma second_delivery_panics_witness :
  let first := ChunkDeliveryMsg.mk Ex.h1 Ex.data 0 in
  let again := ChunkDeliveryMsg.mk Ex.h1 [x64] 0 in
  fst (processReceivedChunk first Ex.dbPending) = Ok tt /\
  fst (processReceivedChunk again (snd (processReceivedChunk first Ex.dbPending)))
    = Panic.
Proof.
  cbv zeta.
  pose proof (second_delivery_panics Ex.dbPending Ex.h1 Ex.data [x64] 0%N 0%N 0
                eq_refl eq_refl) as H.
  destruct (processReceivedChunk _ Ex.dbPending) as [r1 d1]. cbn [fst snd].
  destruct (processReceivedChunk _ d1) as [r2 d2].
  destruct H as (H1 & _ & _ & H4 & _). split; assumption.
Defined.

(** ** Retrieve requests *)

(** X15.  [Retrieve] has a fan-out of one: only the connection nearest
    to the key is contacted, every other connection stays as it was,
    and when the nearest has room at [Top] its [Top] level gains the
    one [RetrieveRequestMsg] for the key of the chunk. *)
Theorem Retrieve_contacts_nearest_only
    (chunk : Chunk) (self : Streamer) (i po : nat) (nn : bool)
    (rest : list (nat * nat * bool)) (sp : StreamerPeer) :
  order (overlay self) (cKey chunk) = (i, po, nn) :: rest ->
  conns (overlay self) !! i = Some sp ->
  exists sp',
    conns (overlay (snd (Retrieve chunk self))) = <[i := sp']> (conns (overlay self)) /\
    (forall j, j <> i ->
       conns (overlay (snd (Retrieve chunk self))) !! j = conns (overlay self) !! j) /\
    outgoing sp' = outgoing sp /\ incoming sp' = incoming sp /\
    if pq.has_room (pq_ sp) (N.to_nat Top)
    then pq.level (pq_ sp') (N.to_nat Top)
         = pq.level (pq_ sp) (N.to_nat Top)
           ++ [MRetrieveRequest (RetrieveRequestMsg.mk (cKey chunk))]
    else pq_ sp' = pq_ sp.
Proof.
  intros Ho Hsp. unfold Retrieve, EachConn. rewrite Ho. simpl. rewrite Hsp.
  match goal with |- context [SendPriority ?m ?pr ?st] => set (msg := m) end.
  destruct (SendPriority msg Top sp) as [r sp'] eqn:Hsend. simpl.
  exists sp'. split; [done |]. split.
  { intros j Hj. by rewrite list_lookup_insert_ne. }
  assert (Hframe : outgoing sp' = outgoing sp /\ incoming sp' = incoming sp).
  { unfold SendPriority in Hsend. destruct (pq.Push _ _ _) as [[e |] q]; by simplify_eq. }
  destruct Hframe as [-> ->]. split; [done |]. split; [done |].
  destruct (pq.has_room (pq_ sp) (N.to_nat Top)) eqn:Hroom.
  - destruct (SendPriority_room msg Top sp Hroom) as (p & Hp & Hl & _).
    rewrite Hp in Hsend. by simplify_eq.
  - destruct (SendPriority_full msg Top sp Hroom) as (p & Hp & Hq & _).
    rewrite Hp in Hsend. by simplify_eq.
Qed.

Lemma Retrieve_contacts_nearest_only_witness :
  let far := NewStreamerPeer 3 in
  let st := mkStreamer ∅ ∅ Ex.emptyDb
              (mkOverlay [NewStreamerPeer 2; far] (fun _ => [(0, 0, true); (1, 1, false)]))
              [] ∅ in
  let chunk := NewChunk Ex.h1 (Some 0) in
  exists sp',
    conns (overlay (snd (Retrieve chunk st))) = [sp'; far] /\
    pq.level (pq_ sp') 4 = [MRetrieveRequest (RetrieveRequestMsg.mk Ex.h1)].
Proof.
  destruct (Retrieve_contacts_nearest_only (NewChunk Ex.h1 (Some 0))
              (mkStreamer ∅ ∅ Ex.emptyDb
                 (mkOverlay [NewStreamerPeer 2; NewStreamerPeer 3]
                            (fun _ => [(0, 0, true); (1, 1, false)])) [] ∅)
              0 0 true [(1, 1, false)] (NewStreamerPeer 2) eq_refl eq_refl)
    as (sp' & H1 & _ & _ & _ & H5).
  exists sp'. split; assumption.
Defined.








(** ** Offered batches, in general *)

(** The loop of [handleUnsyncedKeysMsg] never panics: it starts waits,
    all on the WaitGroup of the handler, raises the counter by their
    number, and records calls of [NeedData]; nothing else changes. *)
Lemma unsyncedKeysLoop_total
    (stream : string) (s : incomingStreamer) (hashes : bytes) (wg : nat) (fuel : nat) :
  forall (i n0 : nat) (want : bv.BitVector) (self : StreamerPeer),
    bv.nbytes (length hashes / HashSize) <= length (bv.b want) ->
    wgs self !! wg = Some n0 ->
    exists want' p waits evs,
      unsyncedKeysLoop fuel stream s hashes wg want i self = (Ok want', p) /\
      length (bv.b want') = length (bv.b want) /\
      goroutines p = goroutines self ++ waits /\
      Forall (isWaitOf wg) waits /\
      wgs p = <[wg := n0 + length waits]> (wgs self) /\
      trace p = trace self ++ evs /\ Forall isNeedData evs /\
      incoming p = incoming self /\ outgoing p = outgoing self /\
      pq_ p = pq_ self /\ deliveries p = deliveries self.
Proof.
  induction fuel as [| fuel IH]; intros i n0 want self Hwant Hwg.
  - exists want, self, [], []. simpl. rewrite !app_nil_r, Nat.add_0_r.
    rewrite list_insert_id by done. repeat split; done.
  - cbn [unsyncedKeysLoop].
    destruct (Nat.ltb_spec i (length hashes / HashSize)) as [Hi | Hi].
    2:{ exists want, self, [], []. simpl. rewrite !app_nil_r, Nat.add_0_r.
        rewrite list_insert_id by done. repeat split; done. }
    assert (Hslice : is_Some (slice hashes i (i + HashSize))).
    { unfold slice.
      pose proof (Nat.Div0.mul_div_le (length hashes) HashSize) as Hmul.
      rewrite (proj2 (Nat.leb_le _ _)) by lia.
      rewrite (proj2 (Nat.leb_le _ _)); [eauto |].
      unfold HashSize in *. nia. }
    destruct Hslice as [hash Hhash].
    rewrite (bind_Ok _ _ self self hash) by (by rewrite Hhash).
    destruct (NeedData (iIncomingStreamer s) hash) as [wait |].
    + assert (Hset : is_Some (bv.Set_ want i true)).
      { unfold bv.Set_.
        destruct (lookup_lt_is_Some_2 (bv.b want) (i / 8)) as [y Hy].
        { pose proof (nbytes_covers _ _ Hi). lia. }
        rewrite Hy. eauto. }
      destruct Hset as [want1 Hwant1].
      assert (Hlen1 : length (bv.b want1) = length (bv.b want)).
      { unfold bv.Set_ in Hwant1. destruct (bv.b want !! (i / 8)); [| done].
        injection Hwant1 as <-. simpl. apply length_insert. }
      erewrite bind_Ok by reflexivity.
      erewrite bind_Ok by (by rewrite Hwant1).
      erewrite bind_Ok by (unfold wgAdd; simpl; rewrite Hwg; reflexivity).
      erewrite bind_Ok by reflexivity.
      match goal with |- context [unsyncedKeysLoop _ _ _ _ _ _ _ ?st] =>
        set (st1 := st) end.
      destruct (IH (i + HashSize) (S n0) want1 st1)
        as (want' & p & waits & evs & Hrun & Hlen & Hgo & Hwaits & Hwgs & Htr & Hevs
            & Hinc & Hout & Hpq & Hdel).
      { lia. }
      { subst st1. simpl. apply list_lookup_insert_eq. by eapply lookup_lt_Some. }
      exists want', p, (GoWait wait wg :: waits), (EvNeedData stream hash true :: evs).
      split; [exact Hrun |]. split; [lia |].
      split; [rewrite Hgo; subst st1; simpl; by rewrite <- app_assoc |].
      split; [by constructor |].
      split.
      { rewrite Hwgs. subst st1. simpl. rewrite list_insert_insert_eq.
        f_equal. lia. }
      split; [rewrite Htr; subst st1; simpl; by rewrite <- app_assoc |].
      split; [by constructor |]. done.
    + erewrite bind_Ok by reflexivity.
      match goal with |- context [unsyncedKeysLoop _ _ _ _ _ _ _ ?st] =>
        set (st1 := st) end.
      destruct (IH (i + HashSize) n0 want st1)
        as (want' & p & waits & evs & Hrun & Hlen & Hgo & Hwaits & Hwgs & Htr & Hevs
            & Hinc & Hout & Hpq & Hdel); [done | done |].
      exists want', p, waits, (EvNeedData stream hash false :: evs).
      split; [exact Hrun |]. split; [done |]. split; [done |]. split; [done |].
      split; [done |].
      split; [rewrite Htr; subst st1; simpl; by rewrite <- app_assoc |].
      split; [by constructor |]. done.
Qed.

(** X19.  On a live stream [handleUnsyncedKeysMsg] returns nil for
    every batch and queues nothing itself.  It makes one WaitGroup
    whose counter is the number of waits it starts, starts one
    goroutine for [BatchDone] on that WaitGroup, sets the session mark
    of the entry to the start of the batch, and, unless the batch ends
    at 0, starts one gated sender whose [WantedKeysMsg] names the
    stream, carries no key, has as many want bytes as the batch needs
    and asks for the range from the end of the batch to 0. *)
Theorem handleUnsyncedKeysMsg_live
    (req : UnsyncedKeysMsg.t) (self : StreamerPeer) (s : incomingStreamer) :
  let stream := UnsyncedKeysMsg.Stream req in
  let wg := length (wgs self) in
  incoming self !! stream = Some s ->
  live s = true ->
  exists p waits want evs,
    handleUnsyncedKeysMsg req self = (Ok tt, p) /\
    wgs p = wgs self ++ [length waits] /\
    Forall (isWaitOf wg) waits /\
    goroutines p
      = goroutines self ++ waits ++ GoBatchDone stream wg req
          :: (if (UnsyncedKeysMsg.To req =? 0)%N then []
              else [GoGatedSend stream
                      (WantedKeysMsg.mk stream [] want (UnsyncedKeysMsg.To req) 0%N)]) /\
    length want = bv.nbytes (length (UnsyncedKeysMsg.Hashes req) / HashSize) /\
    incoming p = alter (set_sessionAt (UnsyncedKeysMsg.From req)) stream (incoming self) /\
    trace p = trace self ++ evs /\ Forall isNeedData evs /\
    pq_ p = pq_ self /\ outgoing p = outgoing self.
Proof.
  intros stream wg Hs Hlive. unfold handleUnsyncedKeysMsg. fold stream.
  rewrite (bind_Ok _ _ self self s) by (unfold getIncomingStreamer; by rewrite Hs).
  erewrite bind_Ok by reflexivity.
  erewrite bind_Ok by reflexivity.
  set (want0 := bv.mkBV (length (UnsyncedKeysMsg.Hashes req) / HashSize)
                 (replicate (bv.nbytes (length (UnsyncedKeysMsg.Hashes req) / HashSize))
                            x00)).
  set (st1 := set_wgs (wgs self ++ [0]) self).
  destruct (unsyncedKeysLoop_total stream s (UnsyncedKeysMsg.Hashes req) wg
              (length (UnsyncedKeysMsg.Hashes req) / HashSize) 0 0 want0 st1)
    as (want' & p1 & waits & evs & Hrun & Hlen & Hgo & Hwaits & Hwgs & Htr & Hevs
        & Hinc & Hout & Hpq & Hdel).
  { subst want0. simpl. by rewrite length_replicate. }
  { subst st1 wg. simpl. rewrite lookup_app_r by lia. by rewrite Nat.sub_diag. }
  fold wg. rewrite (bind_Ok _ _ _ _ _ Hrun).
  erewrite bind_Ok by reflexivity.
  rewrite Hlive.
  erewrite bind_Ok by reflexivity.
  erewrite bind_Ok by reflexivity.
  erewrite bind_Ok; cycle 1.
  { simpl. rewrite lookup_alter_eq, Hinc. subst st1. simpl. rewrite Hs. reflexivity. }
  erewrite bind_Ok; cycle 1.
  { unfold nextBatch, nextBatchFrom. simpl. rewrite Hlive. reflexivity. }
  cbv beta iota.
  assert (Hwgs' : wgs p1 = wgs self ++ [length waits]).
  { rewrite Hwgs. subst st1 wg. simpl.
    rewrite insert_app_r_alt by lia. by rewrite Nat.sub_diag. }
  assert (Hwant : length (bv.Bytes want')
                  = bv.nbytes (length (UnsyncedKeysMsg.Hashes req) / HashSize)).
  { unfold bv.Bytes. rewrite Hlen. subst want0. simpl. apply length_replicate. }
  cbn [goroutines trace incoming outgoing pq_ set_wgs] in Hgo, Htr, Hinc, Hout, Hpq.
  destruct (N.eqb _ _).
  - eexists _, waits, (bv.Bytes want'), evs. split; [reflexivity |].
    cbn -[Nat.div bv.nbytes]. rewrite Hgo, <- app_assoc.
    repeat split; try done; congruence.
  - eexists _, waits, (bv.Bytes want'), evs. split; [reflexivity |].
    cbn -[Nat.div bv.nbytes]. rewrite Hgo, <- !app_assoc.
    repeat split; try done; congruence.
Qed.

Lemma handleUnsyncedKeysMsg_live_witness :
  exists p waits want evs,
    handleUnsyncedKeysMsg Ex.batch1 Ex.peer1 = (Ok tt, p) /\
    wgs p = [length waits] /\
    goroutines p
      = waits ++ [GoBatchDone "live" 0 Ex.batch1;
                  GoGatedSend "live" (WantedKeysMsg.mk "live" [] want 11 0)] /\
    trace p = trace Ex.peer1 ++ evs.
Proof.
  destruct (handleUnsyncedKeysMsg_live Ex.batch1 Ex.peer1
              (mkIncomingStreamer Ex.needFirst Mid 0 true None 1) eq_refl eq_refl)
    as (p & waits & want & evs & H1 & H2 & _ & H4 & _ & _ & H7 & _).
  exists p, waits, want, evs. repeat split; assumption.
Defined.

(** X20.  A historical stream as [setIncomingStreamer] makes it (not
    live, session mark 0) never asks for a next range: for every batch
    [handleUnsyncedKeysMsg] returns nil, starts the waits and the
    goroutine for [BatchDone], and starts no gated sender; the entry is
    left as it was. *)
Theorem handleUnsyncedKeysMsg_historical_never_replies
    (req : UnsyncedKeysMsg.t) (self : StreamerPeer) (s : incomingStreamer) :
  let stream := UnsyncedKeysMsg.Stream req in
  let wg := length (wgs self) in
  incoming self !! stream = Some s ->
  live s = false ->
  sessionAt s = 0%N ->
  exists p waits,
    handleUnsyncedKeysMsg req self = (Ok tt, p) /\
    wgs p = wgs self ++ [length waits] /\
    Forall (isWaitOf wg) waits /\
    goroutines p = goroutines self ++ waits ++ [GoBatchDone stream wg req] /\
    incoming p = incoming self /\ pq_ p = pq_ self.
Proof.
  intros stream wg Hs Hlive Hat. unfold handleUnsyncedKeysMsg. fold stream.
  rewrite (bind_Ok _ _ self self s) by (unfold getIncomingStreamer; by rewrite Hs).
  erewrite bind_Ok by reflexivity.
  erewrite bind_Ok by reflexivity.
  set (want0 := bv.mkBV (length (UnsyncedKeysMsg.Hashes req) / HashSize)
                 (replicate (bv.nbytes (length (UnsyncedKeysMsg.Hashes req) / HashSize))
                            x00)).
  set (st1 := set_wgs (wgs self ++ [0]) self).
  destruct (unsyncedKeysLoop_total stream s (UnsyncedKeysMsg.Hashes req) wg
              (length (UnsyncedKeysMsg.Hashes req) / HashSize) 0 0 want0 st1)
    as (want' & p1 & waits & evs & Hrun & Hlen & Hgo & Hwaits & Hwgs & Htr & Hevs
        & Hinc & Hout & Hpq & Hdel).
  { subst want0. simpl. by rewrite length_replicate. }
  { subst st1 wg. simpl. rewrite lookup_app_r by lia. by rewrite Nat.sub_diag. }
  fold wg. rewrite (bind_Ok _ _ _ _ _ Hrun).
  erewrite bind_Ok by reflexivity.
  rewrite Hlive.
  erewrite bind_Ok by reflexivity.
  erewrite bind_Ok by reflexivity.
  erewrite bind_Ok; cycle 1.
  { simpl. rewrite Hinc. subst st1. simpl. rewrite Hs. reflexivity. }
  erewrite bind_Ok; cycle 1.
  { unfold nextBatch, nextBatchFrom. rewrite Hlive, Hat.
    rewrite (proj2 (N.leb_le _ _) (N.le_0_l _)). reflexivity. }
  cbv beta iota.
  assert (Hwgs' : wgs p1 = wgs self ++ [length waits]).
  { rewrite Hwgs. subst st1 wg. simpl.
    rewrite insert_app_r_alt by lia. by rewrite Nat.sub_diag. }
  cbn [goroutines trace incoming outgoing pq_ set_wgs] in Hgo, Htr, Hinc, Hout, Hpq.
  eexists _, waits. split; [reflexivity |].
  cbn -[Nat.div bv.nbytes]. rewrite Hgo, <- app_assoc.
  repeat split; try done; congruence.
Qed.

Lemma handleUnsyncedKeysMsg_historical_never_replies_witness :
  let self := snd (setIncomingStreamer "live" Ex.needAll Mid false (NewStreamerPeer 1)) in
  exists p waits,
    handleUnsyncedKeysMsg Ex.batch12 self = (Ok tt, p) /\
    goroutines p = waits ++ [GoBatchDone "live" 0 Ex.batch12] /\
    incoming p = incoming self.
Proof.
  destruct (handleUnsyncedKeysMsg_historical_never_replies Ex.batch12
              (snd (setIncomingStreamer "live" Ex.needAll Mid false (NewStreamerPeer 1)))
              (mkIncomingStreamer Ex.needAll Mid 0 false None 1)
              eq_refl eq_refl eq_refl)
    as (p & waits & H1 & _ & _ & H4 & H5 & _).
  exists p, waits. repeat split; assumption.
Defined.

(** ** Wanted hashes, errors and the full batch *)

(** X21.  [handleWantedKeysMsg] fails without a change when the stream
    has no outgoing entry.  When the want vector does not have the
    length the current batch needs, it fails with the length error and
    queues no delivery, but the goroutine that offers the next batch
    has already been started. *)
Theorem handleWantedKeysMsg_errors (req : WantedKeysMsg.t) (self : StreamerPeer) :
  let stream := WantedKeysMsg.Stream req in
  (outgoing self !! stream = None ->
   handleWantedKeysMsg req self = (Err (ErrStreamNotProvided stream), self)) /\
  (forall s,
     outgoing self !! stream = Some s ->
     length (WantedKeysMsg.Want req) <> bv.nbytes (length (currentBatch s) / HashSize) ->
     handleWantedKeysMsg req self
       = (Err ErrInvalidLength,
          set_goroutines
            (goroutines self
             ++ [GoSendUnsyncedKeys stream (WantedKeysMsg.From req) (WantedKeysMsg.To req)])
            self)).
Proof.
  intros stream. unfold handleWantedKeysMsg. fold stream. split.
  - intros Hs. unfold bind, getOutgoingStreamer. by rewrite Hs.
  - intros s Hs Hlen.
    rewrite (bind_Ok _ _ self self s) by (unfold getOutgoingStreamer; by rewrite Hs).
    erewrite bind_Ok by reflexivity.
    unfold bind, lift, bv.NewFromBytes.
    by rewrite (proj2 (Nat.eqb_neq _ _) Hlen).
Qed.

Lemma handleWantedKeysMsg_errors_witness :
  let self := Ex.peerOut "sync" Ex.serveAll (Ex.h1 ++ Ex.h2) in
  handleWantedKeysMsg (WantedKeysMsg.mk "live" [] [x01] 2 3) self
    = (Err (ErrStreamNotProvided "live"), self) /\
  handleWantedKeysMsg (WantedKeysMsg.mk "sync" [] [] 2 3) self
    = (Err ErrInvalidLength, set_goroutines [GoSendUnsyncedKeys "sync" 2 3] self).
Proof.
  split.
  - apply (proj1 (handleWantedKeysMsg_errors (WantedKeysMsg.mk "live" [] [x01] 2 3)
                    (Ex.peerOut "sync" Ex.serveAll (Ex.h1 ++ Ex.h2)))).
    reflexivity.
  - apply (proj2 (handleWantedKeysMsg_errors (WantedKeysMsg.mk "sync" [] [] 2 3)
                    (Ex.peerOut "sync" Ex.serveAll (Ex.h1 ++ Ex.h2)))
             (mkOutgoingStreamer Ex.serveAll Mid (Ex.h1 ++ Ex.h2)) eq_refl).
    vm_compute. discriminate.
Defined.

Lemma wantedKeysLoop_serves_all
    (stream : string) (s : outgoingStreamer) (hashes : bytes) (want : bv.BitVector)
    (n : nat) :
  forall (i : nat) (self : StreamerPeer) (lvl : list Msg),
    (forall j, i <= j < i + n -> is_Some (bv.Get want j)) ->
    (i + n) * HashSize <= length hashes ->
    (forall j, i <= j < i + n -> wanted want j = true ->
       is_Some (GetData (oOutgoingStreamer s) (hashAt hashes j))) ->
    pq.Queues (pq_ self) !! N.to_nat (opriority s) = Some lvl ->
    length lvl + length (deliveriesFor s hashes want i n) <= pq.capacity (pq_ self) ->
    exists p,
      wantedKeysLoop stream s hashes want n i self = (Ok tt, p) /\
      pq.Queues (pq_ p)
        = <[N.to_nat (opriority s) := lvl ++ deliveriesFor s hashes want i n]>
            (pq.Queues (pq_ self)) /\
      pq.capacity (pq_ p) = pq.capacity (pq_ self) /\
      goroutines p = goroutines self /\ outgoing p = outgoing self /\
      incoming p = incoming self.
Proof.
  induction n as [| n IH]; intros i self lvl Hget Hlen Hdata Hlvl Hcap.
  - exists self. simpl. unfold deliveriesFor. simpl. rewrite app_nil_r.
    rewrite list_insert_id by done. done.
  - cbn [wantedKeysLoop].
    destruct (Hget i ltac:(lia)) as [w Hw].
    rewrite (bind_Ok _ _ self self w) by (by rewrite Hw).
    assert (Hwanted : wanted want i = w) by (unfold wanted; by rewrite Hw).
    destruct w.
    + rewrite (bind_Ok _ _ self self (hashAt hashes i))
        by (rewrite slice_hashAt by (unfold HashSize in *; lia); reflexivity).
      destruct (Hdata i ltac:(lia) Hwanted) as [data Hd]. rewrite Hd.
      erewrite bind_Ok by reflexivity.
      rewrite (deliveriesFor_serve _ _ _ _ _ data) in Hcap by done.
      simpl in Hcap.
      set (msg := MChunkDelivery (ChunkDeliveryMsg.mk (hashAt hashes i) data 0%N)).
      set (st1 := set_trace (trace self ++ [EvGetData stream (hashAt hashes i) true]) self).
      assert (Hpush : Deliver (mkChunk (hashAt hashes i) data None) (opriority s) st1
                      = (Ok tt,
                         set_trace (trace st1 ++ [EvPush msg (opriority s) true])
                           (set_pq (pq.mkPQ (<[N.to_nat (opriority s) := lvl ++ [msg]]>
                                               (pq.Queues (pq_ self)))
                                            (pq.capacity (pq_ self))) st1))).
      { unfold Deliver, SendPriority, pq.Push. simpl. rewrite Hlvl.
        rewrite (proj2 (Nat.ltb_lt _ _)) by lia. reflexivity. }
      rewrite (bind_Ok _ _ _ _ _ Hpush).
      match goal with |- context [wantedKeysLoop _ _ _ _ _ _ ?st] => set (st2 := st) end.
      destruct (IH (S i) st2 (lvl ++ [msg])) as (p & Hrun & Hq & Hc & Hg & Ho & Hi).
      { intros j Hj. apply Hget. lia. }
      { lia. }
      { intros j Hj. apply Hdata. lia. }
      { subst st2. simpl. apply list_lookup_insert_eq. by eapply lookup_lt_Some. }
      { subst st2. simpl. rewrite length_app. simpl. lia. }
      exists p. split; [exact Hrun |]. rewrite Hq, Hc. subst st2. simpl.
      rewrite list_insert_insert_eq.
      rewrite (deliveriesFor_serve _ _ _ _ _ data) by done.
      rewrite <- app_assoc. by rewrite Hg, Ho, Hi.
    + rewrite deliveriesFor_skip in Hcap by done.
      destruct (IH (S i) self lvl) as (p & Hrun & Hq & Hc & Hg & Ho & Hi);
        [intros j Hj; apply Hget; lia | lia | intros j Hj; apply Hdata; lia
        | done | done |].
      exists p. split; [exact Hrun |].
      rewrite deliveriesFor_skip by done. done.
Qed.

(** X22.  When every wanted hash of the current batch has its data and
    the level of the handler's priority has room for all the
    deliveries, [handleWantedKeysMsg] returns nil and appends to that
    level exactly one [ChunkDeliveryMsg] for each set bit, in the order
    of the batch, and starts the one goroutine that offers the next
    batch. *)
Theorem handleWantedKeysMsg_serves_all
    (req : WantedKeysMsg.t) (self : StreamerPeer) (s : outgoingStreamer)
    (want : bv.BitVector) (lvl : list Msg) :
  let stream := WantedKeysMsg.Stream req in
  let batch := currentBatch s in
  let l := length batch / HashSize in
  let prio := N.to_nat (opriority s) in
  outgoing self !! stream = Some s ->
  bv.NewFromBytes (WantedKeysMsg.Want req) l = Ok want ->
  (forall j, j < l -> wanted want j = true ->
     is_Some (GetData (oOutgoingStreamer s) (hashAt batch j))) ->
  pq.Queues (pq_ self) !! prio = Some lvl ->
  length lvl + length (deliveriesFor s batch want 0 l) <= pq.capacity (pq_ self) ->
  exists p,
    handleWantedKeysMsg req self = (Ok tt, p) /\
    pq.level (pq_ p) prio = lvl ++ deliveriesFor s batch want 0 l /\
    (forall p', p' <> prio -> pq.level (pq_ p) p' = pq.level (pq_ self) p') /\
    goroutines p
      = goroutines self
        ++ [GoSendUnsyncedKeys stream (WantedKeysMsg.From req) (WantedKeysMsg.To req)] /\
    outgoing p = outgoing self.
Proof.
  intros stream batch l prio Hs Hwant Hdata Hlvl Hcap.
  unfold handleWantedKeysMsg. fold stream.
  rewrite (bind_Ok _ _ self self s) by (unfold getOutgoingStreamer; by rewrite Hs).
  erewrite bind_Ok by reflexivity.
  fold batch. fold l.
  rewrite (bind_Ok _ _ _ _ want) by (unfold lift; by rewrite Hwant).
  match goal with |- context [wantedKeysLoop _ _ _ _ _ _ ?st] => set (st1 := st) end.
  destruct (wantedKeysLoop_serves_all stream s batch want l 0 st1 lvl)
    as (p & Hrun & Hq & Hc & Hg & Ho & Hi).
  - intros j Hj. eapply NewFromBytes_Get; [exact Hwant | lia].
  - rewrite Nat.add_0_l, Nat.mul_comm. apply Nat.Div0.mul_div_le.
  - intros j Hj. apply Hdata. lia.
  - done.
  - done.
  - exists p. split; [exact Hrun |]. unfold pq.level. rewrite Hq.
    subst st1. cbn [pq_ set_goroutines].
    rewrite list_lookup_insert_eq by (by eapply lookup_lt_Some).
    split; [done |]. split; [| by rewrite Hg, Ho].
    intros p' Hp'. by rewrite list_lookup_insert_ne.
Qed.

Lemma handleWantedKeysMsg_serves_all_witness :
  let batch := Ex.h1 ++ Ex.h2 ++ Ex.h3 ++ Ex.h4 in
  let self := Ex.peerOut "sync" Ex.serveAll batch in
  let req := WantedKeysMsg.mk "sync" [] [x0d] 4 5 in
  exists p,
    handleWantedKeysMsg req self = (Ok tt, p) /\
    pq.level (pq_ p) 2 =
      [ MChunkDelivery (ChunkDeliveryMsg.mk Ex.h1 Ex.data 0);
        MChunkDelivery (ChunkDeliveryMsg.mk Ex.h3 Ex.data 0);
        MChunkDelivery (ChunkDeliveryMsg.mk Ex.h4 Ex.data 0) ] /\
    goroutines p = [GoSendUnsyncedKeys "sync" 4 5].
Proof.
  destruct (handleWantedKeysMsg_serves_all
              (WantedKeysMsg.mk "sync" [] [x0d] 4 5)
              (Ex.peerOut "sync" Ex.serveAll (Ex.h1 ++ Ex.h2 ++ Ex.h3 ++ Ex.h4))
              (mkOutgoingStreamer Ex.serveAll Mid (Ex.h1 ++ Ex.h2 ++ Ex.h3 ++ Ex.h4))
              (bv.mkBV 4 [x0d]) [] eq_refl eq_refl)
    as (p & H1 & H2 & _ & H4 & _).
  - intros j Hj Hw. vm_compute. eauto.
  - reflexivity.
  - vm_compute. lia.
  - exists p. repeat split; assumption.
Defined.

(** * Invariants of the goroutine pool *)

(** ** Counting *)

Lemma count_app {A} (f : A -> bool) (l1 l2 : list A) :
  count f (l1 ++ l2) = count f l1 + count f l2.
Proof. induction l1 as [| x l1 IH]; simpl; [done |]. rewrite IH. lia. Qed.

Lemma count_delete {A} (f : A -> bool) (l : list A) (i : nat) (x : A) :
  l !! i = Some x ->
  count f (delete i l) + (if f x then 1 else 0) = count f l.
Proof.
  revert i. induction l as [| y l IH]; intros [| i] H; simplify_eq/=; [lia |].
  specialize (IH i H). lia.
Qed.

Lemma count_insert {A} (f : A -> bool) (l : list A) (i : nat) (x y : A) :
  l !! i = Some x ->
  count f (<[i := y]> l) + (if f x then 1 else 0)
    = count f l + (if f y then 1 else 0).
Proof.
  revert i. induction l as [| z l IH]; intros [| i] H; simplify_eq/=; [lia |].
  specialize (IH i H). lia.
Qed.

Lemma count_none {A} (f : A -> bool) (P : A -> Prop) (l : list A) :
  (forall x, P x -> f x = false) -> Forall P l -> count f l = 0.
Proof.
  intros HP H. induction H as [| x l Hx _ IH]; simpl; [done |].
  by rewrite (HP x Hx), IH.
Qed.

Lemma count_all {A} (f : A -> bool) (P : A -> Prop) (l : list A) :
  (forall x, P x -> f x = true) -> Forall P l -> count f l = length l.
Proof.
  intros HP H. induction H as [| x l Hx _ IH]; simpl; [done |].
  by rewrite (HP x Hx), IH.
Qed.

Lemma quietEvent_uncounted (s : string) (e : event) :
  quietEvent e ->
  isTakenB s e = false /\ isSignalB s e = false /\
  isBatchDoneB s e = false /\ isWantedSentB s e = false.
Proof. destruct e as [| | | | | | | | [] ? ?]; simpl; intros H; try done. Qed.

Lemma starter_uncounted (g : goroutine) :
  starter g ->
  wellFormed g /\
  (forall wg, isWaitB wg g = false) /\
  (forall s, isSendWantedB s g = false) /\
  (forall s, isSignalNextB s g = false).
Proof. destruct g; simpl; intros H; done. Qed.

Lemma isWaitOf_counted (wg : nat) (g : goroutine) :
  isWaitOf wg g ->
  wellFormed g /\
  (forall wg', isWaitB wg' g = (wg =? wg')) /\
  (forall s, isSendWantedB s g = false) /\
  (forall s, isSignalNextB s g = false).
Proof. destruct g; simpl; intros H; try done. by subst. Qed.

Lemma isNeedData_quiet (e : event) : isNeedData e -> quietEvent e.
Proof. by destruct e. Qed.

(** ** What the handlers do to the peer *)

Lemma handlerEffect_refl (self : StreamerPeer) : handlerEffect self self.
Proof.
  split; [done |]. split.
  - exists []. by rewrite app_nil_r.
  - left. split; [done |]. exists []. by rewrite app_nil_r.
Qed.

Lemma SendPriority_frame (msg : Msg) (priority : uint8) (self p : StreamerPeer)
    (r : result unit) :
  SendPriority msg priority self = (r, p) ->
  goroutines p = goroutines self /\ wgs p = wgs self /\
  incoming p = incoming self /\ outgoing p = outgoing self /\
  deliveries p = deliveries self /\
  exists ok, trace p = trace self ++ [EvPush msg priority ok].
Proof.
  unfold SendPriority. destruct (pq.Push _ _ _) as [[e |] q]; intros [= <- <-];
    simpl; eauto 10.
Qed.

Lemma SendUnsyncedKeys_frame (s : string) (f t : uint64) (self p : StreamerPeer)
    (r : result unit) :
  SendUnsyncedKeys s f t self = (r, p) ->
  goroutines p = goroutines self /\ wgs p = wgs self /\
  incoming p = incoming self /\
  exists evs, trace p = trace self ++ evs /\ Forall quietEvent evs.
Proof.
  unfold SendUnsyncedKeys.
  rewrite (bind_Ok _ _ self self self) by reflexivity.
  destruct (outgoing self !! s) as [os |] eqn:Hos.
  2:{ unfold bind, orPanic, panic. intros [= <- <-].
      repeat split; try done. exists []. by rewrite app_nil_r. }
  rewrite (bind_Ok _ _ self self os) by reflexivity.
  erewrite bind_Ok by reflexivity.
  destruct (SetNextBatch (oOutgoingStreamer os) f t) as [[[[hashes from] to] proof] | e |].
  - erewrite bind_Ok by reflexivity. cbv beta iota.
    erewrite bind_Ok by reflexivity.
    intros H. apply SendPriority_frame in H as (Hg & Hw & Hi & _ & _ & ok & Htr).
    rewrite Hg, Hw, Hi. repeat split; try done.
    eexists. rewrite Htr. simpl. rewrite <- app_assoc. split; [reflexivity |].
    repeat constructor.
  - unfold bind, lift. intros [= <- <-]. repeat split; try done.
    eexists. split; [reflexivity |]. repeat constructor.
  - unfold bind, lift. intros [= <- <-]. repeat split; try done.
    eexists. split; [reflexivity |]. repeat constructor.
Qed.

Lemma wantedKeysLoop_frame
    (stream : string) (s : outgoingStreamer) (hashes : bytes) (want : bv.BitVector)
    (n : nat) :
  forall (i : nat) (self p : StreamerPeer) (r : result unit),
    wantedKeysLoop stream s hashes want n i self = (r, p) ->
    goroutines p = goroutines self /\ wgs p = wgs self /\
    incoming p = incoming self /\
    exists evs, trace p = trace self ++ evs /\ Forall quietEvent evs.
Proof.
  induction n as [| n IH]; intros i self p r.
  - intros [= <- <-]. repeat split; try done. exists []. by rewrite app_nil_r.
  - cbn [wantedKeysLoop].
    destruct (bv.Get want i) as [[] |].
    + rewrite (bind_Ok _ _ self self true) by reflexivity.
      destruct (slice hashes (i * HashSize) ((i + 1) * HashSize)) as [hash |].
      2:{ unfold bind, orPanic, panic. intros [= <- <-]. repeat split; try done.
          exists []. by rewrite app_nil_r. }
      rewrite (bind_Ok _ _ self self hash) by reflexivity.
      destruct (GetData (oOutgoingStreamer s) hash) as [data |].
      * erewrite bind_Ok by reflexivity.
        destruct (Deliver (mkChunk hash data None) (opriority s)
                    (set_trace (trace self ++ [EvGetData stream hash true]) self))
          as [rd pd] eqn:Hd.
        pose proof Hd as Hd'. unfold Deliver in Hd'.
        apply SendPriority_frame in Hd' as (Hg & Hw & Hi & _ & _ & ok & Htr).
        destruct rd as [[] | e |].
        -- rewrite (bind_Ok _ _ _ _ _ Hd). intros H.
           apply IH in H as (Hg' & Hw' & Hi' & evs & Htr' & Hq).
           rewrite Hg', Hw', Hi', Hg, Hw, Hi. repeat split; try done.
           eexists. rewrite Htr', Htr. simpl. rewrite <- !app_assoc.
           split; [reflexivity |]. simpl. repeat constructor. done.
        -- unfold bind. rewrite Hd. intros [= <- <-].
           rewrite Hg, Hw, Hi. repeat split; try done.
           eexists. rewrite Htr. simpl. rewrite <- app_assoc.
           split; [reflexivity |]. repeat constructor.
        -- unfold bind. rewrite Hd. intros [= <- <-].
           rewrite Hg, Hw, Hi. repeat split; try done.
           eexists. rewrite Htr. simpl. rewrite <- app_assoc.
           split; [reflexivity |]. repeat constructor.
      * erewrite bind_Ok by reflexivity. unfold fail. intros [= <- <-].
        repeat split; try done. eexists. split; [reflexivity |]. repeat constructor.
    + rewrite (bind_Ok _ _ self self false) by reflexivity. apply IH.
    + unfold bind, orPanic, panic. intros [= <- <-]. repeat split; try done.
      exists []. by rewrite app_nil_r.
Qed.

Lemma handleSubscribeMsg_effect (streamer : Streamer) (req : SubscribeMsg.t)
    (self p : StreamerPeer) (r : result unit) :
  handleSubscribeMsg streamer req self = (r, p) -> handlerEffect self p.
Proof.
  unfold handleSubscribeMsg, bind, lift, get, attempt, setOutgoingStreamer, go, modify, ret.
  destruct (GetOutgoingStreamer streamer (SubscribeMsg.Stream req)) as [f | e |];
    [| intros [= <- <-]; apply handlerEffect_refl ..].
  destruct (f self (SubscribeMsg.Key req)) as [o | e |];
    [| intros [= <- <-]; apply handlerEffect_refl ..].
  destruct (outgoing self !! _); intros [= <- <-]; [apply handlerEffect_refl |].
  split; [done |]. split.
  - exists []. by rewrite app_nil_r.
  - left. split; [done |]. eexists. split; [reflexivity |]. by repeat constructor.
Qed.

Lemma handleUnsyncedKeysMsg_effect (req : UnsyncedKeysMsg.t) (self p : StreamerPeer)
    (r : result unit) :
  handleUnsyncedKeysMsg req self = (r, p) -> handlerEffect self p.
Proof.
  unfold handleUnsyncedKeysMsg.
  set (stream := UnsyncedKeysMsg.Stream req).
  destruct (incoming self !! stream) as [s |] eqn:Hs.
  2:{ unfold bind at 1, getIncomingStreamer. rewrite Hs. intros [= <- <-].
      apply handlerEffect_refl. }
  rewrite (bind_Ok _ _ self self s) by (unfold getIncomingStreamer; by rewrite Hs).
  erewrite bind_Ok by reflexivity.
  erewrite bind_Ok by reflexivity.
  set (want0 := bv.mkBV (length (UnsyncedKeysMsg.Hashes req) / HashSize)
                 (replicate (bv.nbytes (length (UnsyncedKeysMsg.Hashes req) / HashSize))
                            x00)).
  set (st1 := set_wgs (wgs self ++ [0]) self).
  destruct (unsyncedKeysLoop_total stream s (UnsyncedKeysMsg.Hashes req)
              (length (wgs self))
              (length (UnsyncedKeysMsg.Hashes req) / HashSize) 0 0 want0 st1)
    as (want' & p1 & waits & evs & Hrun & Hlen & Hgo & Hwaits & Hwgs & Htr & Hevs
        & Hinc & Hout & Hpq & Hdel).
  { subst want0. simpl. by rewrite length_replicate. }
  { subst st1. simpl. rewrite lookup_app_r by lia. by rewrite Nat.sub_diag. }
  rewrite (bind_Ok _ _ _ _ _ Hrun).
  erewrite bind_Ok by reflexivity.
  assert (Hwgs' : wgs p1 = wgs self ++ [length waits]).
  { rewrite Hwgs. subst st1. simpl.
    rewrite insert_app_r_alt by lia. by rewrite Nat.sub_diag. }
  unfold st1 in Hgo, Htr, Hinc, Hout, Hpq.
  cbn [goroutines trace incoming outgoing pq_ set_wgs] in Hgo, Htr, Hinc, Hout, Hpq.
  assert (Hnext : forall (q : StreamerPeer) x,
            incoming q = alter (set_sessionAt (UnsyncedKeysMsg.From req)) stream
                               (incoming self) \/ incoming q = incoming self ->
            nextOf x q = nextOf x self).
  { intros q x [Hq | Hq]; unfold nextOf; rewrite Hq; [| done].
    destruct (decide (stream = x)) as [<- | Hne].
    - rewrite lookup_alter_eq. by destruct (incoming self !! stream).
    - by rewrite lookup_alter_ne. }
  assert (Hevs' : Forall quietEvent evs).
  { eapply Forall_impl; [exact Hevs | apply isNeedData_quiet]. }
  assert (Hconcl : forall (q : StreamerPeer) (tail : list goroutine),
            (incoming q = alter (set_sessionAt (UnsyncedKeysMsg.From req)) stream
                                (incoming self) \/ incoming q = incoming self) ->
            trace q = trace p1 -> wgs q = wgs p1 ->
            goroutines q = goroutines p1
                           ++ GoBatchDone stream (length (wgs self)) req :: tail ->
            Forall starter tail ->
            handlerEffect self q).
  { intros q tail Hq Htq Hwq Hgq Htail. split; [intros x; by apply Hnext |]. split.
    - exists evs. by rewrite Htq, Htr.
    - right. exists waits, (GoBatchDone stream (length (wgs self)) req :: tail).
      rewrite Hwq, Hgq, Hgo, <- app_assoc. repeat split; try done.
      by constructor. }
  destruct (live s) eqn:Hlive.
  - erewrite bind_Ok by reflexivity.
    erewrite bind_Ok by reflexivity.
    erewrite bind_Ok; cycle 1.
    { simpl. rewrite lookup_alter_eq, Hinc, Hs. reflexivity. }
    destruct (nextBatch _ (UnsyncedKeysMsg.To req)) as [[from to] |] eqn:Hnb.
    + erewrite bind_Ok by reflexivity. cbv beta iota.
      destruct (N.eqb from to).
      * intros [= <- <-]. apply (Hconcl _ []); try done.
        left. simpl. by rewrite ?Hinc.
      * intros [= <- <-]. eapply (Hconcl _ [_]); try done.
        -- left. simpl. by rewrite ?Hinc.
        -- simpl. by rewrite <- app_assoc.
        -- by repeat constructor.
    + unfold bind, orPanic, panic. intros [= <- <-].
      apply (Hconcl _ []); try done. left. simpl. by rewrite ?Hinc.
  - erewrite bind_Ok by reflexivity.
    erewrite bind_Ok by reflexivity.
    erewrite bind_Ok; cycle 1.
    { simpl. rewrite Hinc, Hs. reflexivity. }
    destruct (nextBatch _ (UnsyncedKeysMsg.To req)) as [[from to] |] eqn:Hnb.
    + erewrite bind_Ok by reflexivity. cbv beta iota.
      destruct (N.eqb from to).
      * intros [= <- <-]. apply (Hconcl _ []); try done. by right.
      * intros [= <- <-]. eapply (Hconcl _ [_]); try done.
        -- by right.
        -- simpl. by rewrite <- app_assoc.
        -- by repeat constructor.
    + unfold bind, orPanic, panic. intros [= <- <-].
      apply (Hconcl _ []); try done. by right.
Qed.

Lemma handleWantedKeysMsg_effect (req : WantedKeysMsg.t) (self p : StreamerPeer)
    (r : result unit) :
  handleWantedKeysMsg req self = (r, p) -> handlerEffect self p.
Proof.
  unfold handleWantedKeysMsg.
  set (stream := WantedKeysMsg.Stream req).
  destruct (outgoing self !! stream) as [s |] eqn:Hs.
  2:{ unfold bind at 1, getOutgoingStreamer. rewrite Hs. intros [= <- <-].
      apply handlerEffect_refl. }
  rewrite (bind_Ok _ _ self self s) by (unfold getOutgoingStreamer; by rewrite Hs).
  erewrite bind_Ok by reflexivity.
  set (st1 := set_goroutines (goroutines self ++ [_]) self).
  assert (Hst1 : handlerEffect self st1).
  { split; [done |]. split.
    - exists []. by rewrite app_nil_r.
    - left. split; [done |]. eexists. split; [reflexivity |]. by repeat constructor. }
  destruct (bv.NewFromBytes (WantedKeysMsg.Want req) _) as [want | e |] eqn:Hw.
  - erewrite bind_Ok by reflexivity.
    intros H. apply wantedKeysLoop_frame in H as (Hg & Hwg & Hi & evs & Htr & Hq).
    split; [intros x; unfold nextOf; by rewrite Hi |]. split.
    + exists evs. by rewrite Htr.
    + left. split; [by rewrite Hwg |]. eexists. rewrite Hg. split; [reflexivity |].
      by repeat constructor.
  - unfold bind, lift. by intros [= <- <-].
  - unfold bind, lift. by intros [= <- <-].
Qed.

Lemma handleTakeoverProofMsg_same (req : TakeoverProofMsg.t) (self p : StreamerPeer)
    (r : result unit) :
  handleTakeoverProofMsg req self = (r, p) -> p = self.
Proof.
  unfold handleTakeoverProofMsg, bind, orPanic, getOutgoingStreamer, ret, panic.
  destruct (TakeoverProofMsg.Stream req) as [stream |]; [| by intros [= <- <-]].
  destruct (outgoing self !! stream); by intros [= <- <-].
Qed.

Lemma HandleMsg_effect (msg : Msg) (streamer streamer' : Streamer)
    (self p : StreamerPeer) (r : result unit) :
  HandleMsg msg streamer self = (r, streamer', p) -> handlerEffect self p.
Proof.
  destruct msg as [m | m | m | m | m | m]; simpl.
  - destruct (handleSubscribeMsg streamer m self) as [r0 p0] eqn:H.
    intros [= <- <- <-]. by eapply handleSubscribeMsg_effect.
  - destruct (handleUnsyncedKeysMsg m self) as [r0 p0] eqn:H.
    intros [= <- <- <-]. by eapply handleUnsyncedKeysMsg_effect.
  - destruct (handleWantedKeysMsg m self) as [r0 p0] eqn:H.
    intros [= <- <- <-]. by eapply handleWantedKeysMsg_effect.
  - destruct (handleTakeoverProofMsg m self) as [r0 p0] eqn:H.
    intros [= <- <- <-]. apply handleTakeoverProofMsg_same in H as ->.
    apply handlerEffect_refl.
  - destruct (handleChunkDeliveryMsg m streamer). intros [= <- <- <-].
    apply handlerEffect_refl.
  - intros [= <- <- <-]. apply handlerEffect_refl.
Qed.

(** ** What a step of a goroutine does to the peer *)

Lemma stepGoroutine_shape (d : DbAccess) (i : nat) (a : arm) (self p : StreamerPeer) :
  stepGoroutine d i a self = Stepped p ->
  exists g,
    goroutines self !! i = Some g /\
    ((exists s f t evs,
        g = GoSendUnsyncedKeys s f t /\
        goroutines p = delete i (goroutines self) /\ wgs p = wgs self /\
        incoming p = incoming self /\
        trace p = trace self ++ evs /\ Forall quietEvent evs) \/
     (exists w wg n,
        g = GoWait w wg /\ wgs self !! wg = Some (S n) /\
        wgs p = <[wg := n]> (wgs self) /\
        goroutines p = delete i (goroutines self) /\
        incoming p = incoming self /\
        trace p = trace self ++ [EvWaitDone w wg]) \/
     (exists s wg req evs,
        g = GoBatchDone s wg req /\ wgs self !! wg = Some 0 /\
        wgs p = wgs self /\ incoming p = incoming self /\
        trace p = trace self
                  ++ EvBatchDone (UnsyncedKeysMsg.Stream req) (UnsyncedKeysMsg.From req)
                       (UnsyncedKeysMsg.Hashes req) :: evs /\
        Forall quietEvent evs /\
        (goroutines p = <[i := GoSignalNext s]> (goroutines self) \/
         goroutines p = delete i (goroutines self))) \/
     (exists s entry,
        g = GoSignalNext s /\ incoming self !! s = Some entry /\ next entry = 0 /\
        incoming p = alter (set_next 1) s (incoming self) /\
        goroutines p = delete i (goroutines self) /\ wgs p = wgs self /\
        trace p = trace self ++ [EvNextSignal s]) \/
     (exists s msg entry n,
        g = GoGatedSend s msg /\ incoming self !! s = Some entry /\ next entry = S n /\
        incoming p = alter (set_next n) s (incoming self) /\
        goroutines p = <[i := GoSendWanted s msg]> (goroutines self) /\
        wgs p = wgs self /\
        trace p = trace self ++ [EvNextTaken s]) \/
     (exists s msg,
        g = GoGatedSend s msg /\
        goroutines p = delete i (goroutines self) /\ wgs p = wgs self /\
        incoming p = incoming self /\
        trace p = trace self ++ [EvQuitTaken s]) \/
     (exists s msg priority ok,
        g = GoSendWanted s msg /\
        goroutines p = delete i (goroutines self) /\ wgs p = wgs self /\
        incoming p = incoming self /\
        trace p = trace self ++ [EvPush (MWantedKeys msg) priority ok]) \/
     (exists chunk dc,
        g = GoRetrieveWait chunk dc /\
        goroutines p = delete i (goroutines self) /\ wgs p = wgs self /\
        incoming p = incoming self /\ trace p = trace self)).
Proof.
  unfold stepGoroutine.
  destruct (goroutines self !! i) as [g |] eqn:Hg; [| done].
  intros H. exists g. split; [done |].
  destruct g as [s f t | w wg | s wg req | s | s msg | s msg | chunk dc];
    destruct a; try done.
  - (* SendUnsyncedKeys *)
    left. destruct (SendUnsyncedKeys s f t self) as [r p0] eqn:Hrun.
    apply SendUnsyncedKeys_frame in Hrun as (Hgo & Hw & Hi & evs & Htr & Hq).
    exists s, f, t, evs.
    destruct r; simplify_eq; simpl; rewrite ?Hgo; done.
  - (* wait *)
    right; left. destruct (wgs self !! wg) as [[| n] |] eqn:Hwg; simplify_eq.
    exists w, wg, n. done.
  - (* batch done *)
    right; right; left.
    destruct (wgs self !! wg) as [[| n] |] eqn:Hwg; simplify_eq.
    destruct (incoming self !! s) as [entry |] eqn:He; [| done].
    destruct (UnsyncedKeysMsg.Root req) as [root |]; [| done].
    destruct (BatchDone _ _ _ _ _) as [[tp | e |] |].
    + destruct (SendPriority _ _ _) as [r p0] eqn:Hsend.
      apply SendPriority_frame in Hsend as (Hgo & Hw & Hi & _ & _ & ok & Htr).
      simplify_eq. eexists s, wg, req, [_]. simpl. rewrite Hgo, Hw, Hi, Htr. simpl.
      rewrite <- app_assoc. repeat split; try done; [| by left].
      by repeat constructor.
    + simplify_eq. exists s, wg, req, []. simpl. repeat split; try done. by right.
    + done.
    + simplify_eq. exists s, wg, req, []. simpl. repeat split; try done. by left.
  - (* signal next *)
    do 3 right; left.
    destruct (incoming self !! s) as [entry |] eqn:He; [| done].
    destruct (Nat.ltb_spec (next entry) 1) as [Hn |]; [| done].
    simplify_eq. exists s, entry. simpl.
    replace (S (next entry)) with 1 by lia. repeat split; try done. lia.
  - (* take the token *)
    do 4 right; left.
    destruct (incoming self !! s) as [entry |] eqn:He; [| done].
    destruct (next entry) as [| n] eqn:Hn; [done |].
    simplify_eq. exists s, msg, entry, n. done.
  - (* quit *)
    do 5 right; left.
    destruct (incoming self !! s) as [entry |] eqn:He; [| done].
    destruct (quit entry) as [c |]; [| done].
    destruct (db.isClosed c d); [| done].
    simplify_eq. exists s, msg. done.
  - (* send *)
    do 6 right; left.
    destruct (incoming self !! s) as [entry |] eqn:He; [| done].
    destruct (SendPriority _ _ _) as [r p0] eqn:Hsend.
    apply SendPriority_frame in Hsend as (Hgo & Hw & Hi & _ & _ & ok & Htr).
    simplify_eq. exists s, msg, (ipriority entry), ok. simpl.
    rewrite Hgo, Hw, Hi, Htr. done.
  - (* retrieve wait, chunk arrived *)
    do 7 right.
    destruct (ReqC chunk) as [c |]; [| done].
    destruct (db.isClosed c d); [| done].
    simplify_eq. exists chunk, dc. done.
  - do 7 right. destruct (quitClosed self); [| done].
    simplify_eq. exists chunk, dc. done.
  - do 7 right. simplify_eq. exists chunk, dc. done.
Qed.

(** ** The barrier *)

Lemma waitersOf_waits (wg L : nat) (waits : list goroutine) :
  Forall (isWaitOf L) waits ->
  waitersOf wg waits = if L =? wg then length waits else 0.
Proof.
  intros H. unfold waitersOf. destruct (L =? wg) eqn:E.
  - apply (count_all _ (isWaitOf L)); [| done].
    intros g Hg. rewrite (proj1 (proj2 (isWaitOf_counted _ _ Hg))). done.
  - apply (count_none _ (isWaitOf L)); [| done].
    intros g Hg. rewrite (proj1 (proj2 (isWaitOf_counted _ _ Hg))). done.
Qed.

Lemma barrier_effect (self p : StreamerPeer) :
  handlerEffect self p -> barrier self -> barrier p.
Proof.
  intros (_ & _ & [[Hw (gs & Hg & Hgs)] | (waits & gs & Hw & Hg & Hwaits & Hgs)]) Hb wg;
    specialize (Hb wg); unfold waitersOf in *; rewrite Hg, Hw.
  - rewrite count_app, (count_none _ starter _ (fun g Hs =>
      proj1 (proj2 (starter_uncounted g Hs)) wg) Hgs). lia.
  - rewrite !count_app, (count_none _ starter _ (fun g Hs =>
      proj1 (proj2 (starter_uncounted g Hs)) wg) Hgs).
    pose proof (waitersOf_waits wg _ _ Hwaits) as Hc. unfold waitersOf in Hc.
    rewrite Hc, Hb.
    destruct (Nat.eqb_spec (length (wgs self)) wg) as [<- | Hne].
    + rewrite lookup_app_r by lia. rewrite Nat.sub_diag. simpl.
      rewrite lookup_ge_None_2 by lia. simpl. lia.
    + destruct (decide (wg < length (wgs self))) as [Hlt | Hge].
      * rewrite lookup_app_l by done. lia.
      * rewrite (lookup_ge_None_2 (wgs self)) by lia.
        rewrite lookup_ge_None_2 by (rewrite length_app; simpl; lia). simpl. lia.
Qed.

Lemma barrier_step (d : DbAccess) (i : nat) (a : arm) (self p : StreamerPeer) :
  stepGoroutine d i a self = Stepped p -> barrier self -> barrier p.
Proof.
  intros Hstep Hb wg. specialize (Hb wg). unfold waitersOf in *.
  apply stepGoroutine_shape in Hstep as (g & Hg & Hshape).
  pose proof (count_delete (isWaitB wg) _ _ _ Hg) as Hdel.
  destruct Hshape as
    [(s & f & t & evs & -> & Hgo & Hw & _)
    |[(w & wg0 & n & -> & Hwg & Hw & Hgo & _)
    |[(s & wg0 & req & evs & -> & _ & Hw & _ & _ & _ & [Hgo | Hgo])
    |[(s & entry & -> & _ & _ & _ & Hgo & Hw & _)
    |[(s & msg & entry & n & -> & _ & _ & _ & Hgo & Hw & _)
    |[(s & msg & -> & Hgo & Hw & _)
    |[(s & msg & priority & ok & -> & Hgo & Hw & _)
    |(chunk & dc & -> & Hgo & Hw & _)]]]]]]];
    rewrite Hgo, Hw; simpl in Hdel; try lia.
  - (* a wait returns *)
    destruct (Nat.eqb_spec wg0 wg) as [<- | Hne].
    + rewrite list_lookup_insert_eq by (by eapply lookup_lt_Some).
      rewrite Hwg in Hb. simpl in *. lia.
    + rewrite list_lookup_insert_ne by done. lia.
  - pose proof (count_insert (isWaitB wg) _ _ _ (GoSignalNext s) Hg) as Hins.
    simpl in Hins. lia.
  - pose proof (count_insert (isWaitB wg) _ _ _ (GoSendWanted s msg) Hg) as Hins.
    simpl in Hins. lia.
Qed.

Lemma barrier_run (ins : list input) :
  forall (streamer streamer' : Streamer) (self p : StreamerPeer),
    run ins streamer self = Some (streamer', p) -> barrier self -> barrier p.
Proof.
  induction ins as [| [msg | i a] ins IH]; intros streamer streamer' self p; simpl.
  - by intros [= <- <-].
  - destruct (HandleMsg msg streamer self) as [[r st1] p1] eqn:Hh.
    intros Hrun Hb.
    assert (Hb1 : barrier p1)
      by (eapply barrier_effect; [eapply HandleMsg_effect; exact Hh | done]).
    destruct r; try done; eapply IH; eauto.
  - destruct (stepGoroutine (dbAccess streamer) i a self) as [| p1 | p1] eqn:Hs;
      try done.
    intros Hrun Hb. eapply IH; [exact Hrun |]. by eapply barrier_step.
Qed.

(** ** The gate *)

Lemma gate_effect (s : string) (c : nat) (self p : StreamerPeer) :
  handlerEffect self p -> gate s c self -> gate s c p.
Proof.
  intros (Hnext & (evs & Htr & Hevs) & Hpool) (Hwf & H1 & H2 & H3).
  assert (Hq : forall f, (forall e, quietEvent e -> f e = false) ->
                 count f (trace p) = count f (trace self)).
  { intros f Hf. rewrite Htr, count_app, (count_none f quietEvent evs); [lia | done | done]. }
  assert (Hpool' : exists new,
            goroutines p = goroutines self ++ new /\ Forall wellFormed new /\
            count (isSendWantedB s) new = 0 /\ count (isSignalNextB s) new = 0).
  { destruct Hpool as [[_ (gs & Hg & Hgs)] | (waits & gs & _ & Hg & Hwaits & Hgs)].
    - exists gs. split; [done |]. split.
      + eapply Forall_impl; [exact Hgs |]. intros g Hs. apply (starter_uncounted g Hs).
      + split; apply (count_none _ starter); try done;
          intros g Hs; apply (starter_uncounted g Hs).
    - exists (waits ++ gs). split; [done |]. split.
      + apply Forall_app. split.
        * eapply Forall_impl; [exact Hwaits |]. intros g Hw.
          apply (isWaitOf_counted _ g Hw).
        * eapply Forall_impl; [exact Hgs |]. intros g Hs. apply (starter_uncounted g Hs).
      + rewrite !count_app.
        rewrite (count_none (isSendWantedB s) (isWaitOf (length (wgs self))) waits),
                (count_none (isSignalNextB s) (isWaitOf (length (wgs self))) waits),
                (count_none (isSendWantedB s) starter gs),
                (count_none (isSignalNextB s) starter gs); try done;
          intros g' Hg'; first [apply (starter_uncounted g' Hg')
                               | apply (isWaitOf_counted _ g' Hg')]. }
  destruct Hpool' as (new & Hg & Hnew & Hn1 & Hn2).
  unfold gate. rewrite Hg, !count_app, Hn1, Hn2, Hnext.
  rewrite (Hq (isTakenB s)), (Hq (isSignalB s)), (Hq (isBatchDoneB s)),
          (Hq (isWantedSentB s));
    try (intros e He; apply (quietEvent_uncounted s e He)).
  split; [by apply Forall_app |]. lia.
Qed.

Lemma nextOf_alter (s x : string) (n : nat) (p self : StreamerPeer)
    (entry : incomingStreamer) :
  incoming self !! s = Some entry ->
  incoming p = alter (set_next n) s (incoming self) ->
  nextOf x p = if decide (s = x) then n else nextOf x self.
Proof.
  intros He Hp. unfold nextOf. rewrite Hp. destruct (decide (s = x)) as [<- | Hne].
  - by rewrite lookup_alter_eq, He.
  - by rewrite lookup_alter_ne.
Qed.

Lemma gate_step (s : string) (c : nat) (d : DbAccess) (i : nat) (a : arm)
    (self p : StreamerPeer) :
  stepGoroutine d i a self = Stepped p -> gate s c self -> gate s c p.
Proof.
  intros Hstep (Hwf & H1 & H2 & H3).
  apply stepGoroutine_shape in Hstep as (g & Hg & Hshape).
  pose proof (count_delete (isSendWantedB s) _ _ _ Hg) as Hd1.
  pose proof (count_delete (isSignalNextB s) _ _ _ Hg) as Hd2.
  assert (Hwfg : wellFormed g) by (eapply Forall_lookup_1; eauto).
  assert (Hwfd : Forall wellFormed (delete i (goroutines self)))
    by (by apply Forall_delete).
  unfold gate.
  destruct Hshape as
    [(s0 & f & t & evs & -> & Hgo & _ & Hi & Htr & Hq)
    |[(w & wg0 & n & -> & _ & _ & Hgo & Hi & Htr)
    |[(s0 & wg0 & req & evs & -> & _ & _ & Hi & Htr & Hq & Hgo)
    |[(s0 & entry & -> & He & Hn & Hi & Hgo & _ & Htr)
    |[(s0 & msg & entry & n & -> & He & Hn & Hi & Hgo & _ & Htr)
    |[(s0 & msg & -> & Hgo & _ & Hi & Htr)
    |[(s0 & msg & priority & ok & -> & Hgo & _ & Hi & Htr)
    |(chunk & dc & -> & Hgo & _ & Hi & Htr)]]]]]]].
  - (* SendUnsyncedKeys *)
    rewrite Hgo, Htr, !count_app. unfold nextOf. rewrite Hi.
    rewrite (count_none (isTakenB s) quietEvent evs),
            (count_none (isSignalB s) quietEvent evs),
            (count_none (isBatchDoneB s) quietEvent evs),
            (count_none (isWantedSentB s) quietEvent evs);
      try done; try (intros e He; apply (quietEvent_uncounted s e He)).
    simpl in *. unfold nextOf in H1. split; [done |]. lia.
  - (* wait *)
    rewrite Hgo, Htr, !count_app. unfold nextOf. rewrite Hi.
    simpl in *. unfold nextOf in H1. split; [done |]. lia.
  - (* batch done *)
    simpl in Hwfg. subst s0.
    assert (Htr' : forall f, (forall e, quietEvent e -> f e = false) ->
              count f (trace p)
              = count f (trace self)
                + (if f (EvBatchDone (UnsyncedKeysMsg.Stream req)
                           (UnsyncedKeysMsg.From req) (UnsyncedKeysMsg.Hashes req))
                   then 1 else 0)).
    { intros f Hf. rewrite Htr, count_app. simpl.
      rewrite (count_none f quietEvent evs); [lia | done | done]. }
    rewrite (Htr' (isTakenB s)), (Htr' (isSignalB s)), (Htr' (isBatchDoneB s)),
            (Htr' (isWantedSentB s));
      try (intros e He; apply (quietEvent_uncounted s e He)).
    unfold nextOf. rewrite Hi. unfold nextOf in H1. simpl in *.
    destruct Hgo as [Hgo | Hgo]; rewrite Hgo.
    + pose proof (count_insert (isSendWantedB s) _ _ _
                    (GoSignalNext (UnsyncedKeysMsg.Stream req)) Hg) as Hi1.
      pose proof (count_insert (isSignalNextB s) _ _ _
                    (GoSignalNext (UnsyncedKeysMsg.Stream req)) Hg) as Hi2.
      simpl in Hi1, Hi2. split; [by apply Forall_insert |].
      destruct (bool_decide (UnsyncedKeysMsg.Stream req = s)); lia.
    + split; [done |].
      destruct (bool_decide (UnsyncedKeysMsg.Stream req = s)); lia.
  - (* signal next *)
    rewrite Hgo, Htr, !count_app.
    rewrite (nextOf_alter s0 s 1 p self entry He Hi).
    assert (Hnx : s0 = s -> nextOf s self = 0)
      by (intros <-; unfold nextOf; by rewrite He, <- Hn).
    simpl in *. split; [done |].
    destruct (decide (s0 = s)) as [Heq | Hne].
    + rewrite !bool_decide_eq_true_2 in * by done. specialize (Hnx Heq). lia.
    + rewrite !bool_decide_eq_false_2 in * by done. lia.
  - (* take the token *)
    rewrite Hgo, Htr, !count_app.
    rewrite (nextOf_alter s0 s n p self entry He Hi).
    assert (Hnx : s0 = s -> nextOf s self = S n)
      by (intros <-; unfold nextOf; by rewrite He, <- Hn).
    pose proof (count_insert (isSendWantedB s) _ _ _ (GoSendWanted s0 msg) Hg) as Hi1.
    pose proof (count_insert (isSignalNextB s) _ _ _ (GoSendWanted s0 msg) Hg) as Hi2.
    simpl in *. split; [by apply Forall_insert |].
    destruct (decide (s0 = s)) as [Heq | Hne].
    + rewrite !bool_decide_eq_true_2 in * by done. specialize (Hnx Heq). lia.
    + rewrite !bool_decide_eq_false_2 in * by done. lia.
  - (* quit *)
    rewrite Hgo, Htr, !count_app. unfold nextOf. rewrite Hi.
    simpl in *. unfold nextOf in H1. split; [done |]. lia.
  - (* send *)
    rewrite Hgo, Htr, !count_app. unfold nextOf. rewrite Hi.
    simpl in Hwfg. simpl in *. unfold nextOf in H1. split; [done |].
    rewrite Hwfg.
    destruct ok; destruct (bool_decide (s0 = s)); lia.
  - (* retrieve wait *)
    rewrite Hgo, Htr. unfold nextOf. rewrite Hi.
    simpl in *. unfold nextOf in H1. split; [done |]. lia.
Qed.

Lemma gate_run (s : string) (c : nat) (ins : list input) :
  forall (streamer streamer' : Streamer) (self p : StreamerPeer),
    run ins streamer self = Some (streamer', p) -> gate s c self -> gate s c p.
Proof.
  induction ins as [| [msg | i a] ins IH]; intros streamer streamer' self p; simpl.
  - by intros [= <- <-].
  - destruct (HandleMsg msg streamer self) as [[r st1] p1] eqn:Hh.
    intros Hrun Hb.
    assert (Hb1 : gate s c p1)
      by (eapply gate_effect; [eapply HandleMsg_effect; exact Hh | done]).
    destruct r; try done; eapply IH; eauto.
  - destruct (stepGoroutine (dbAccess streamer) i a self) as [| p1 | p1] eqn:Hs;
      try done.
    intros Hrun Hb. eapply IH; [exact Hrun |]. by eapply gate_step.
Qed.

(** X23.  The barrier of a batch holds for every schedule.  Starting
    from a peer without goroutines and WaitGroups, after any sequence
    of arriving messages and goroutine steps the counter of each
    WaitGroup is the number of its waits that are still running; so
    when the goroutine of a batch gets past [wg.Wait] and calls
    [BatchDone], no wait of that batch is running any more. *)
Theorem BatchDone_after_all_waits
    (ins : list input) (streamer streamer' : Streamer) (self p p' : StreamerPeer)
    (d : DbAccess) (i : nat) (s : string) (wg : nat) (req : UnsyncedKeysMsg.t) :
  goroutines self = [] ->
  wgs self = [] ->
  run ins streamer self = Some (streamer', p) ->
  (forall wg', waitersOf wg' (goroutines p) = default 0 (wgs p !! wg')) /\
  (goroutines p !! i = Some (GoBatchDone s wg req) ->
   stepGoroutine d i ArmMain p = Stepped p' ->
   waitersOf wg (goroutines p) = 0).
Proof.
  intros Hg Hw Hrun.
  assert (Hb : barrier p).
  { eapply barrier_run; [exact Hrun |]. intros wg'. by rewrite Hg, Hw. }
  split; [exact Hb |].
  intros Hi Hstep. rewrite (Hb wg).
  apply stepGoroutine_shape in Hstep as (g & Hg' & Hshape).
  rewrite Hi in Hg'. injection Hg' as <-.
  destruct Hshape as
    [(? & ? & ? & ? & ? & _) | [(? & ? & ? & ? & _) | [(? & ? & ? & ? & Heq & Hwg & _)
    | [(? & ? & ? & _) | [(? & ? & ? & ? & ? & _) | [(? & ? & ? & _)
    | [(? & ? & ? & ? & ? & _) | (? & ? & ? & _)]]]]]]]; try done.
  injection Heq as <- <- <-. by rewrite Hwg.
Qed.

Lemma BatchDone_after_all_waits_witness :
  let res := default (Ex.streamer1, Ex.peer1)
               (run Ex.overtaking Ex.streamer1 Ex.peer1) in
  goroutines Ex.peer1 = [] /\ wgs Ex.peer1 = [] /\
  run Ex.overtaking Ex.streamer1 Ex.peer1 = Some (fst res, snd res) /\
  forall wg', waitersOf wg' (goroutines (snd res)) = default 0 (wgs (snd res) !! wg').
Proof.
  split; [reflexivity | split; [reflexivity | split; [vm_compute; reflexivity |]]].
  refine (proj1 (BatchDone_after_all_waits Ex.overtaking Ex.streamer1 _ Ex.peer1 _
                   Ex.peer1 Ex.emptyDb 0 "live" 0 Ex.batch1 eq_refl eq_refl _)).
  vm_compute. reflexivity.
Defined.

(** X24.  The gate bounds the replies for every schedule.  Starting
    from a peer without goroutines whose trace holds no gate events,
    after any sequence of arriving messages and goroutine steps the
    number of [WantedKeysMsg]s of a stream accepted by the queue is at
    most the tokens the stream had on [next] at the start (one after
    [Subscribe]) plus the number of calls of [BatchDone] for the
    stream. *)
Theorem wantedKeys_bounded_by_batches
    (s : string) (ins : list input) (streamer streamer' : Streamer)
    (self p : StreamerPeer) :
  goroutines self = [] ->
  Forall quietEvent (trace self) ->
  run ins streamer self = Some (streamer', p) ->
  count (isWantedSentB s) (trace p)
    <= nextOf s self + count (isBatchDoneB s) (trace p).
Proof.
  intros Hg Hq Hrun.
  assert (H0 : forall f, (forall e, quietEvent e -> f e = false) ->
                 count f (trace self) = 0)
    by (intros f Hf; by apply (count_none f quietEvent)).
  assert (Hgate : gate s (nextOf s self) p).
  { eapply gate_run; [exact Hrun |]. unfold gate. rewrite Hg.
    rewrite (H0 (isTakenB s)), (H0 (isSignalB s)), (H0 (isBatchDoneB s)),
            (H0 (isWantedSentB s));
      try (intros e He; apply (quietEvent_uncounted s e He)).
    simpl. split; [constructor |]. lia. }
  destruct Hgate as (_ & H1 & H2 & H3). lia.
Qed.

Lemma wantedKeys_bounded_by_batches_witness :
  let res := default (Ex.streamer1, Ex.peer1)
               (run Ex.overtaking Ex.streamer1 Ex.peer1) in
  goroutines Ex.peer1 = [] /\
  run Ex.overtaking Ex.streamer1 Ex.peer1 = Some (fst res, snd res) /\
  count (isWantedSentB "live") (trace (snd res))
    <= nextOf "live" Ex.peer1 + count (isBatchDoneB "live") (trace (snd res)).
Proof.
  split; [reflexivity | split; [vm_compute; reflexivity |]].
  refine (wantedKeys_bounded_by_batches "live" Ex.overtaking Ex.streamer1 _ Ex.peer1 _
            eq_refl _ _).
  - vm_compute. repeat constructor.
  - vm_compute. reflexivity.
Defined.
